(** * httpfilterconsole.cpp: HTTP Host filter and TCP connection hijack

    A shallow embedding of [src/httpfilter/httpfilterconsole.cpp]: the
    parser callbacks and [HttpRequestPayloadMatch] (the request classifier),
    [PacketInit], the start-up part of [main] that builds the three forged
    packet templates, and the body of the interception loop.

    The streaming HTTP parser ([http_parser_execute]), the checksum helper
    ([WinDivertHelperCalcChecksums]) and the packet transport
    ([WinDivertSend]) are external libraries: the program is a function of
    them, so they are variables of the sections below. *)

From Stdlib Require Import ZArith List Ascii String Bool Lia PeanoNat.
Import ListNotations.
Local Open Scope Z_scope.

(* ================================================================== *)
(** ** Fixed-width integers and network byte order *)

Definition UINT16 (x : Z) : Z := x mod 2 ^ 16.
Definition UINT32 (x : Z) : Z := x mod 2 ^ 32.

Definition bswap16 (x : Z) : Z :=
  Z.lor (Z.shiftl (Z.land x 255) 8) (Z.land (Z.shiftr x 8) 255).

Definition bswap32 (x : Z) : Z :=
  Z.lor (Z.lor (Z.shiftl (Z.land x 255) 24)
               (Z.shiftl (Z.land (Z.shiftr x 8) 255) 16))
        (Z.lor (Z.shiftl (Z.land (Z.shiftr x 16) 255) 8)
               (Z.land (Z.shiftr x 24) 255)).

(** The host is little-endian: the winsock conversions swap bytes, after
    the implicit conversion of their argument to [u_short] / [u_long]. *)
Definition htons (x : Z) : Z := bswap16 (UINT16 x).
Definition ntohs (x : Z) : Z := bswap16 (UINT16 x).
Definition htonl (x : Z) : Z := bswap32 (UINT32 x).
Definition ntohl (x : Z) : Z := bswap32 (UINT32 x).

(* ================================================================== *)
(** ** C strings and character buffers *)

Definition NUL : ascii := Ascii.zero.
Definition CR : ascii := ascii_of_nat 13.
Definition LF : ascii := ascii_of_nat 10.
Definition SP : ascii := ascii_of_nat 32.
Definition HT : ascii := ascii_of_nat 9.

Definition code (c : ascii) : Z := Z.of_N (N_of_ascii c).

Definition str (s : string) : list ascii := list_ascii_of_string s.

Definition crlf : list ascii := [CR; LF].

Definition tolower (c : ascii) : ascii :=
  if (65 <=? code c) && (code c <=? 90)
  then ascii_of_N (N_of_ascii c + 32) else c.

(** A [char *] is the list of the bytes readable from the pointer on; what
    lies past the modelled memory reads as NUL. *)
Definition peek (s : list ascii) : ascii := hd NUL s.

(** [strlen]: bytes before the first NUL. *)
Fixpoint strlen (s : list ascii) : nat :=
  match s with
  | [] => O
  | c :: s' => if Ascii.eqb c NUL then O else S (strlen s')
  end.

(** [_strnicmp(s1, s2, count)]: compares at most [count] characters,
    lower-cased, stopping at a terminator. *)
Fixpoint _strnicmp (s1 s2 : list ascii) (count : nat) : Z :=
  match count with
  | O => 0
  | S n =>
      let c1 := tolower (peek s1) in
      let c2 := tolower (peek s2) in
      if Ascii.eqb c1 c2
      then if Ascii.eqb c1 NUL then 0 else _strnicmp (tl s1) (tl s2) n
      else code c1 - code c2
  end.

(** [_stricmp(s1, s2)]: the same without a count. *)
Fixpoint _stricmp (s1 s2 : list ascii) : Z :=
  match s1 with
  | [] => 0 - code (tolower (peek s2))
  | c :: s1' =>
      let c1 := tolower c in
      let c2 := tolower (peek s2) in
      if Ascii.eqb c1 c2
      then if Ascii.eqb c1 NUL then 0 else _stricmp s1' (tl s2)
      else code c1 - code c2
  end.

(** The [n] bytes readable from a pointer. *)
Fixpoint read (src : list ascii) (n : nat) : list ascii :=
  match n with
  | O => []
  | S k => peek src :: read (tl src) k
  end.

(** [memcpy(dst, src, n)] on a buffer [dst] of at least [n] bytes. *)
Definition memcpy (dst src : list ascii) (n : nat) : list ascii :=
  read src n ++ skipn n dst.

(** [buf[i] = c]; an index outside the buffer is not written. *)
Fixpoint poke (buf : list ascii) (i : nat) (c : ascii) : list ascii :=
  match buf, i with
  | [], _ => []
  | _ :: t, O => c :: t
  | b :: t, S k => b :: poke t k c
  end.

(** [strcat(dst, src)] on C strings held as their characters. *)
Definition strcat (dst src : list ascii) : list ascii := dst ++ src.

(* ================================================================== *)
(** ** Globals of the program *)

(** [port], [loopback], [target_url], [new_host_url]: written once by
    [main] from the command line. *)
Record Config := {
  port : Z;
  loopback : bool;
  target_url : list ascii;
  new_host_url : list ascii
}.

(** [temp_header_complete], [temp_is_hostheader], [temp_host[1024]]: the
    state shared by the parser callbacks. *)
Record Classifier := {
  temp_header_complete : bool;
  temp_is_hostheader : bool;
  temp_host : list ascii
}.

(** The callbacks the parser can invoke, with the [at] pointer an offset
    into the buffer handed to [http_parser_execute]. *)
Inductive http_event :=
| on_url (at_ length : nat)
| on_header_field (at_ length : nat)
| on_header_value (at_ length : nat)
| on_headers_complete.

(* ================================================================== *)
(** ** The request classifier *)

Definition my_url_callback (data : list ascii) (at_ length : nat)
    (st : Classifier) : Classifier := st.

Definition my_header_field_callback (data : list ascii) (at_ length : nat)
    (st : Classifier) : Classifier :=
  if _strnicmp (skipn at_ data) (str "host") 4 =? 0
  then {| temp_header_complete := temp_header_complete st;
          temp_is_hostheader := true;
          temp_host := temp_host st |}
  else {| temp_header_complete := temp_header_complete st;
          temp_is_hostheader := false;
          temp_host := temp_host st |}.

Definition my_header_value_callback (data : list ascii) (at_ length : nat)
    (st : Classifier) : Classifier :=
  if temp_is_hostheader st then
    let length := if (1024 <=? length)%nat then 1023%nat else length in
    let buf := memcpy (temp_host st) (skipn at_ data) length in
    let buf := poke buf length NUL in
    {| temp_header_complete := temp_header_complete st;
       temp_is_hostheader := false;
       temp_host := buf |}
  else st.

Definition my_headers_complete_callback (st : Classifier) : Classifier :=
  {| temp_header_complete := true;
     temp_is_hostheader := temp_is_hostheader st;
     temp_host := temp_host st |}.

(** One callback invocation. Every callback returns 0, so the parser is
    never told to stop. *)
Definition callback (data : list ascii) (st : Classifier) (e : http_event)
    : Classifier :=
  match e with
  | on_url a n => my_url_callback data a n st
  | on_header_field a n => my_header_field_callback data a n st
  | on_header_value a n => my_header_value_callback data a n st
  | on_headers_complete => my_headers_complete_callback st
  end.

Section Classify.

(** [http_parser_init] followed by [http_parser_execute] on the [len]
    bytes at [data]: the callbacks it makes, in order, and the number of
    bytes it consumed. *)
Variable http_parser_execute : list ascii -> list http_event * nat.

(** The three assignments before the parse. *)
Definition reset_classifier (st : Classifier) : Classifier :=
  {| temp_header_complete := false;
     temp_is_hostheader := false;
     temp_host := poke (temp_host st) 0 NUL |}.

(** The classifier state after the parse, and the parser's byte count. *)
Definition parse_payload (st : Classifier) (data : list ascii) (len : nat)
    : Classifier * nat :=
  let st := reset_classifier st in
  let '(events, nparsed) := http_parser_execute (firstn len data) in
  (fold_left (callback data) events st, nparsed).

Definition HttpRequestPayloadMatch (cfg : Config) (st : Classifier)
    (data : list ascii) (len : nat) : bool * Classifier :=
  let '(st, nparsed) := parse_payload st data len in
  if temp_header_complete st then
    if _stricmp (target_url cfg) (temp_host st) =? 0
    then (true, st)
    else (false, st)
  else (false, st).

End Classify.

(* ================================================================== *)
(** ** Packet headers *)

(** Modelled from the spec: the header layouts [WINDIVERT_IPHDR],
    [WINDIVERT_TCPHDR] and [WINDIVERT_ADDRESS] are declared in the
    transport library's [windivert.h], which is not part of the source
    tree; the records list the fields of an IPv4 and a TCP header in wire
    order. Multi-byte fields hold the value as the host reads it from
    memory, that is in network byte order. *)
Record WINDIVERT_IPHDR := {
  ip_HdrLength : Z;
  ip_Version : Z;
  ip_TOS : Z;
  ip_Length : Z;
  ip_Id : Z;
  ip_FragOff0 : Z;
  ip_TTL : Z;
  ip_Protocol : Z;
  ip_Checksum : Z;
  ip_SrcAddr : Z;
  ip_DstAddr : Z
}.

Record WINDIVERT_TCPHDR := {
  tcp_SrcPort : Z;
  tcp_DstPort : Z;
  tcp_SeqNum : Z;
  tcp_AckNum : Z;
  tcp_Reserved1 : Z;
  tcp_HdrLength : Z;
  tcp_Fin : Z;
  tcp_Syn : Z;
  tcp_Rst : Z;
  tcp_Psh : Z;
  tcp_Ack : Z;
  tcp_Urg : Z;
  tcp_Reserved2 : Z;
  tcp_Window : Z;
  tcp_Checksum : Z;
  tcp_UrgPtr : Z
}.

Record WINDIVERT_ADDRESS := {
  IfIdx : Z;
  SubIfIdx : Z;
  Direction : Z
}.

Record PACKET := {
  ip : WINDIVERT_IPHDR;
  tcp : WINDIVERT_TCPHDR
}.

Record DATAPACKET := {
  header : PACKET;
  data : list ascii
}.

Definition sizeof_WINDIVERT_IPHDR : Z := 20.
Definition sizeof_WINDIVERT_TCPHDR : Z := 20.
Definition sizeof_UINT32 : Z := 4.
Definition sizeof_PACKET : Z := sizeof_WINDIVERT_IPHDR + sizeof_WINDIVERT_TCPHDR.
Definition sizeof_DATAPACKET : Z := sizeof_PACKET.
Definition IPPROTO_TCP : Z := 6.

(** *** Field assignments *)

Definition set_ip_Length (v : Z) (h : WINDIVERT_IPHDR) : WINDIVERT_IPHDR :=
  {| ip_HdrLength := ip_HdrLength h; ip_Version := ip_Version h;
     ip_TOS := ip_TOS h; ip_Length := v; ip_Id := ip_Id h;
     ip_FragOff0 := ip_FragOff0 h; ip_TTL := ip_TTL h;
     ip_Protocol := ip_Protocol h; ip_Checksum := ip_Checksum h;
     ip_SrcAddr := ip_SrcAddr h; ip_DstAddr := ip_DstAddr h |}.

Definition set_ip_Checksum (v : Z) (h : WINDIVERT_IPHDR) : WINDIVERT_IPHDR :=
  {| ip_HdrLength := ip_HdrLength h; ip_Version := ip_Version h;
     ip_TOS := ip_TOS h; ip_Length := ip_Length h; ip_Id := ip_Id h;
     ip_FragOff0 := ip_FragOff0 h; ip_TTL := ip_TTL h;
     ip_Protocol := ip_Protocol h; ip_Checksum := v;
     ip_SrcAddr := ip_SrcAddr h; ip_DstAddr := ip_DstAddr h |}.

Definition set_ip_SrcAddr (v : Z) (h : WINDIVERT_IPHDR) : WINDIVERT_IPHDR :=
  {| ip_HdrLength := ip_HdrLength h; ip_Version := ip_Version h;
     ip_TOS := ip_TOS h; ip_Length := ip_Length h; ip_Id := ip_Id h;
     ip_FragOff0 := ip_FragOff0 h; ip_TTL := ip_TTL h;
     ip_Protocol := ip_Protocol h; ip_Checksum := ip_Checksum h;
     ip_SrcAddr := v; ip_DstAddr := ip_DstAddr h |}.

Definition set_ip_DstAddr (v : Z) (h : WINDIVERT_IPHDR) : WINDIVERT_IPHDR :=
  {| ip_HdrLength := ip_HdrLength h; ip_Version := ip_Version h;
     ip_TOS := ip_TOS h; ip_Length := ip_Length h; ip_Id := ip_Id h;
     ip_FragOff0 := ip_FragOff0 h; ip_TTL := ip_TTL h;
     ip_Protocol := ip_Protocol h; ip_Checksum := ip_Checksum h;
     ip_SrcAddr := ip_SrcAddr h; ip_DstAddr := v |}.

Definition set_tcp_SrcPort (v : Z) (h : WINDIVERT_TCPHDR) : WINDIVERT_TCPHDR :=
  {| tcp_SrcPort := v; tcp_DstPort := tcp_DstPort h;
     tcp_SeqNum := tcp_SeqNum h; tcp_AckNum := tcp_AckNum h;
     tcp_Reserved1 := tcp_Reserved1 h; tcp_HdrLength := tcp_HdrLength h;
     tcp_Fin := tcp_Fin h; tcp_Syn := tcp_Syn h; tcp_Rst := tcp_Rst h;
     tcp_Psh := tcp_Psh h; tcp_Ack := tcp_Ack h; tcp_Urg := tcp_Urg h;
     tcp_Reserved2 := tcp_Reserved2 h; tcp_Window := tcp_Window h;
     tcp_Checksum := tcp_Checksum h; tcp_UrgPtr := tcp_UrgPtr h |}.

Definition set_tcp_DstPort (v : Z) (h : WINDIVERT_TCPHDR) : WINDIVERT_TCPHDR :=
  {| tcp_SrcPort := tcp_SrcPort h; tcp_DstPort := v;
     tcp_SeqNum := tcp_SeqNum h; tcp_AckNum := tcp_AckNum h;
     tcp_Reserved1 := tcp_Reserved1 h; tcp_HdrLength := tcp_HdrLength h;
     tcp_Fin := tcp_Fin h; tcp_Syn := tcp_Syn h; tcp_Rst := tcp_Rst h;
     tcp_Psh := tcp_Psh h; tcp_Ack := tcp_Ack h; tcp_Urg := tcp_Urg h;
     tcp_Reserved2 := tcp_Reserved2 h; tcp_Window := tcp_Window h;
     tcp_Checksum := tcp_Checksum h; tcp_UrgPtr := tcp_UrgPtr h |}.

Definition set_tcp_SeqNum (v : Z) (h : WINDIVERT_TCPHDR) : WINDIVERT_TCPHDR :=
  {| tcp_SrcPort := tcp_SrcPort h; tcp_DstPort := tcp_DstPort h;
     tcp_SeqNum := v; tcp_AckNum := tcp_AckNum h;
     tcp_Reserved1 := tcp_Reserved1 h; tcp_HdrLength := tcp_HdrLength h;
     tcp_Fin := tcp_Fin h; tcp_Syn := tcp_Syn h; tcp_Rst := tcp_Rst h;
     tcp_Psh := tcp_Psh h; tcp_Ack := tcp_Ack h; tcp_Urg := tcp_Urg h;
     tcp_Reserved2 := tcp_Reserved2 h; tcp_Window := tcp_Window h;
     tcp_Checksum := tcp_Checksum h; tcp_UrgPtr := tcp_UrgPtr h |}.

Definition set_tcp_AckNum (v : Z) (h : WINDIVERT_TCPHDR) : WINDIVERT_TCPHDR :=
  {| tcp_SrcPort := tcp_SrcPort h; tcp_DstPort := tcp_DstPort h;
     tcp_SeqNum := tcp_SeqNum h; tcp_AckNum := v;
     tcp_Reserved1 := tcp_Reserved1 h; tcp_HdrLength := tcp_HdrLength h;
     tcp_Fin := tcp_Fin h; tcp_Syn := tcp_Syn h; tcp_Rst := tcp_Rst h;
     tcp_Psh := tcp_Psh h; tcp_Ack := tcp_Ack h; tcp_Urg := tcp_Urg h;
     tcp_Reserved2 := tcp_Reserved2 h; tcp_Window := tcp_Window h;
     tcp_Checksum := tcp_Checksum h; tcp_UrgPtr := tcp_UrgPtr h |}.

Definition set_tcp_Fin (v : Z) (h : WINDIVERT_TCPHDR) : WINDIVERT_TCPHDR :=
  {| tcp_SrcPort := tcp_SrcPort h; tcp_DstPort := tcp_DstPort h;
     tcp_SeqNum := tcp_SeqNum h; tcp_AckNum := tcp_AckNum h;
     tcp_Reserved1 := tcp_Reserved1 h; tcp_HdrLength := tcp_HdrLength h;
     tcp_Fin := v; tcp_Syn := tcp_Syn h; tcp_Rst := tcp_Rst h;
     tcp_Psh := tcp_Psh h; tcp_Ack := tcp_Ack h; tcp_Urg := tcp_Urg h;
     tcp_Reserved2 := tcp_Reserved2 h; tcp_Window := tcp_Window h;
     tcp_Checksum := tcp_Checksum h; tcp_UrgPtr := tcp_UrgPtr h |}.

Definition set_tcp_Rst (v : Z) (h : WINDIVERT_TCPHDR) : WINDIVERT_TCPHDR :=
  {| tcp_SrcPort := tcp_SrcPort h; tcp_DstPort := tcp_DstPort h;
     tcp_SeqNum := tcp_SeqNum h; tcp_AckNum := tcp_AckNum h;
     tcp_Reserved1 := tcp_Reserved1 h; tcp_HdrLength := tcp_HdrLength h;
     tcp_Fin := tcp_Fin h; tcp_Syn := tcp_Syn h; tcp_Rst := v;
     tcp_Psh := tcp_Psh h; tcp_Ack := tcp_Ack h; tcp_Urg := tcp_Urg h;
     tcp_Reserved2 := tcp_Reserved2 h; tcp_Window := tcp_Window h;
     tcp_Checksum := tcp_Checksum h; tcp_UrgPtr := tcp_UrgPtr h |}.

Definition set_tcp_Psh (v : Z) (h : WINDIVERT_TCPHDR) : WINDIVERT_TCPHDR :=
  {| tcp_SrcPort := tcp_SrcPort h; tcp_DstPort := tcp_DstPort h;
     tcp_SeqNum := tcp_SeqNum h; tcp_AckNum := tcp_AckNum h;
     tcp_Reserved1 := tcp_Reserved1 h; tcp_HdrLength := tcp_HdrLength h;
     tcp_Fin := tcp_Fin h; tcp_Syn := tcp_Syn h; tcp_Rst := tcp_Rst h;
     tcp_Psh := v; tcp_Ack := tcp_Ack h; tcp_Urg := tcp_Urg h;
     tcp_Reserved2 := tcp_Reserved2 h; tcp_Window := tcp_Window h;
     tcp_Checksum := tcp_Checksum h; tcp_UrgPtr := tcp_UrgPtr h |}.

Definition set_tcp_Ack (v : Z) (h : WINDIVERT_TCPHDR) : WINDIVERT_TCPHDR :=
  {| tcp_SrcPort := tcp_SrcPort h; tcp_DstPort := tcp_DstPort h;
     tcp_SeqNum := tcp_SeqNum h; tcp_AckNum := tcp_AckNum h;
     tcp_Reserved1 := tcp_Reserved1 h; tcp_HdrLength := tcp_HdrLength h;
     tcp_Fin := tcp_Fin h; tcp_Syn := tcp_Syn h; tcp_Rst := tcp_Rst h;
     tcp_Psh := tcp_Psh h; tcp_Ack := v; tcp_Urg := tcp_Urg h;
     tcp_Reserved2 := tcp_Reserved2 h; tcp_Window := tcp_Window h;
     tcp_Checksum := tcp_Checksum h; tcp_UrgPtr := tcp_UrgPtr h |}.

Definition set_tcp_Checksum (v : Z) (h : WINDIVERT_TCPHDR) : WINDIVERT_TCPHDR :=
  {| tcp_SrcPort := tcp_SrcPort h; tcp_DstPort := tcp_DstPort h;
     tcp_SeqNum := tcp_SeqNum h; tcp_AckNum := tcp_AckNum h;
     tcp_Reserved1 := tcp_Reserved1 h; tcp_HdrLength := tcp_HdrLength h;
     tcp_Fin := tcp_Fin h; tcp_Syn := tcp_Syn h; tcp_Rst := tcp_Rst h;
     tcp_Psh := tcp_Psh h; tcp_Ack := tcp_Ack h; tcp_Urg := tcp_Urg h;
     tcp_Reserved2 := tcp_Reserved2 h; tcp_Window := tcp_Window h;
     tcp_Checksum := v; tcp_UrgPtr := tcp_UrgPtr h |}.

(** [p->ip.F = v] and [p->tcp.F = v]. *)
Definition on_ip (f : WINDIVERT_IPHDR -> WINDIVERT_IPHDR) (p : PACKET) : PACKET :=
  {| ip := f (ip p); tcp := tcp p |}.
Definition on_tcp (f : WINDIVERT_TCPHDR -> WINDIVERT_TCPHDR) (p : PACKET) : PACKET :=
  {| ip := ip p; tcp := f (tcp p) |}.
Definition on_header (f : PACKET -> PACKET) (b : DATAPACKET) : DATAPACKET :=
  {| header := f (header b); data := data b |}.

(** [PacketInit]: the [memset] to zero, then the fixed fields. *)
Definition PacketInit : PACKET :=
  {| ip := {| ip_HdrLength := sizeof_WINDIVERT_IPHDR / sizeof_UINT32;
              ip_Version := 4;
              ip_TOS := 0;
              ip_Length := htons sizeof_PACKET;
              ip_Id := 0;
              ip_FragOff0 := 0;
              ip_TTL := 64;
              ip_Protocol := IPPROTO_TCP;
              ip_Checksum := 0;
              ip_SrcAddr := 0;
              ip_DstAddr := 0 |};
     tcp := {| tcp_SrcPort := 0; tcp_DstPort := 0;
               tcp_SeqNum := 0; tcp_AckNum := 0;
               tcp_Reserved1 := 0;
               tcp_HdrLength := sizeof_WINDIVERT_TCPHDR / sizeof_UINT32;
               tcp_Fin := 0; tcp_Syn := 0; tcp_Rst := 0;
               tcp_Psh := 0; tcp_Ack := 0; tcp_Urg := 0;
               tcp_Reserved2 := 0; tcp_Window := 0;
               tcp_Checksum := 0; tcp_UrgPtr := 0 |} |}.

(* ================================================================== *)
(** ** Start-up: [main] before the loop *)

(** The pre-fabricated packets and the response text they are built from. *)
Record Forge := {
  responseData : list ascii;
  blockpage_len : Z;
  blockpage : DATAPACKET;
  reset : PACKET;
  finish : PACKET
}.

Definition response_head : list ascii :=
  str "HTTP/1.1 302 Found" ++ crlf ++
  str "Content-Type: text/html; charset=utf-8" ++ crlf ++
  str "Location: http://".

Definition response_tail : list ascii :=
  crlf ++ str "Date: Mon, 09 Jul 2018 06:27:33 GMT" ++ crlf ++
  str "Content-Length:3" ++ crlf ++ crlf ++ str "302".

(** The three [strcat] calls on the emptied [responseData]. *)
Definition build_responseData (new_host : list ascii) : list ascii :=
  strcat (strcat (strcat [] response_head) new_host) response_tail.

Definition is_digit (c : ascii) : bool := (48 <=? code c) && (code c <=? 57).
Definition is_space (c : ascii) : bool :=
  (code c =? 32) || ((9 <=? code c) && (code c <=? 13)).

Fixpoint atoi_digits (s : list ascii) (acc : Z) : Z :=
  match s with
  | c :: s' => if is_digit c then atoi_digits s' (acc * 10 + (code c - 48)) else acc
  | [] => acc
  end.

Fixpoint atoi_sign (s : list ascii) : Z :=
  match s with
  | c :: s' =>
      if is_space c then atoi_sign s'
      else if code c =? 45 then - atoi_digits s' 0
      else if code c =? 43 then atoi_digits s' 0
      else atoi_digits s 0
  | [] => 0
  end.

Definition INT_MAX : Z := 2 ^ 31 - 1.
Definition INT_MIN : Z := - 2 ^ 31.

(** [atoi] of the C library: leading white space, an optional sign, then
    decimal digits. The result is an [int]: a number outside its range
    comes back as [INT_MAX] or [INT_MIN], as the Microsoft run-time used
    here does. *)
Definition atoi (s : list ascii) : Z :=
  Z.max INT_MIN (Z.min INT_MAX (atoi_sign s)).

(** The characters [strcpy] copies: those before the terminator. *)
Definition c_str (s : list ascii) : list ascii := firstn (strlen s) s.

Definition build_blockpage (port : Z) (responseData : list ascii)
    (blockpage_len : Z) : DATAPACKET :=
  let h := PacketInit in
  let h := on_ip (set_ip_Length (htons blockpage_len)) h in
  let h := on_tcp (set_tcp_SrcPort (htons port)) h in
  let h := on_tcp (set_tcp_Psh 1) h in
  let h := on_tcp (set_tcp_Ack 1) h in
  {| header := h;
     data := memcpy [] responseData (strlen responseData) |}.

Definition build_Forge (port : Z) (new_host : list ascii) : Forge :=
  let responseData := build_responseData new_host in
  let blockpage_len := UINT16 (sizeof_DATAPACKET + Z.of_nat (strlen responseData)) in
  {| responseData := responseData;
     blockpage_len := blockpage_len;
     blockpage := build_blockpage port responseData blockpage_len;
     reset := on_tcp (set_tcp_Ack 1) (on_tcp (set_tcp_Rst 1) PacketInit);
     finish := on_tcp (set_tcp_Ack 1) (on_tcp (set_tcp_Fin 1) PacketInit) |}.

Inductive startup :=
| exit_failure
| buffer_overrun
| started (cfg : Config) (f : Forge).

(** [main] up to the loop, on [argv]. A [strcpy] of an argument of 1024
    characters or more runs past [target_url] or [new_host_url]; the
    allocations and [WinDivertOpen] are taken to succeed. *)
Definition main_startup (argv : list (list ascii)) : startup :=
  match argv with
  | [_; a1; a2; a3; a4] =>
      if (1024 <=? strlen a2)%nat || (1024 <=? strlen a3)%nat
      then buffer_overrun
      else
        let cfg := {| port := atoi a1;
                      loopback := _strnicmp a4 (str "true") 4 =? 0;
                      target_url := c_str a2;
                      new_host_url := c_str a3 |} in
        started cfg (build_Forge (port cfg) (new_host_url cfg))
  | _ => exit_failure
  end.

(* ================================================================== *)
(** ** The interception loop *)

(** What [WinDivertHelperParsePacket] finds in a received packet. *)
Record Parsed := {
  ip_header : WINDIVERT_IPHDR;
  tcp_header : WINDIVERT_TCPHDR;
  payload : list ascii;
  payload_len : Z
}.

(** One [WinDivertRecv]: a failure, or a packet with its address and the
    outcome of [WinDivertHelperParsePacket] on it. *)
Inductive received :=
| recv_failed
| recv_packet (packet : list ascii) (packet_len : Z)
              (addr : WINDIVERT_ADDRESS) (parse : option Parsed).

Inductive frame :=
| raw_frame (packet : list ascii)
| packet_frame (p : PACKET)
| data_frame (p : DATAPACKET).

(** What one iteration does to the outside: [WinDivertSend] calls and
    lines on the error stream. *)
Inductive effect :=
| Send (f : frame) (len : Z) (addr : WINDIVERT_ADDRESS)
| Warning (msg : string).

Record Machine := {
  forge : Forge;
  classifier : Classifier
}.

Definition zero_checksums (p : PACKET) : PACKET :=
  on_tcp (set_tcp_Checksum 0) (on_ip (set_ip_Checksum 0) p).

(** [addr.Direction = !addr.Direction]. *)
Definition reverse_direction (a : WINDIVERT_ADDRESS) : WINDIVERT_ADDRESS :=
  {| IfIdx := IfIdx a; SubIfIdx := SubIfIdx a;
     Direction := if Direction a =? 0 then 1 else 0 |}.

Section Loop.

Variable http_parser_execute : list ascii -> list http_event * nat.

(** The IP and TCP checksums of a frame whose checksum fields are zero. *)
Variable checksums : PACKET -> list ascii -> WINDIVERT_ADDRESS -> Z * Z.

(** The outcome of a [WinDivertSend]. *)
Variable WinDivertSend : frame -> Z -> WINDIVERT_ADDRESS -> bool.

(** Modelled from the spec: [ComputeChecksums(rawBytes, metadata)] of the
    transport library mutates the header checksum fields in place; it
    clears both fields and stores the sums taken over the frame. *)
Definition WinDivertHelperCalcChecksums (p : PACKET) (d : list ascii)
    (a : WINDIVERT_ADDRESS) : PACKET :=
  let p0 := zero_checksums p in
  let '(ci, ct) := checksums p0 d a in
  on_tcp (set_tcp_Checksum ct) (on_ip (set_ip_Checksum ci) p0).

(** [if (!WinDivertSend(...)) fprintf(stderr, ...)]. *)
Definition send_or_warn (f : frame) (len : Z) (a : WINDIVERT_ADDRESS)
    (msg : string) : list effect :=
  if WinDivertSend f len a then [Send f len a] else [Send f len a; Warning msg].

(** The three steps taken on a match. The templates are written in place,
    so the stamped packets stay in the [Forge]. *)
Definition hijack (cfg : Config) (f : Forge) (addr : WINDIVERT_ADDRESS)
    (p : Parsed) : Forge * list effect :=
  let ip_header := ip_header p in
  let tcp_header := tcp_header p in
  let payload_len := payload_len p in
  (* (1) a TCP RST to the server *)
  let reset := reset f in
  let reset := on_ip (set_ip_SrcAddr (ip_SrcAddr ip_header)) reset in
  let reset := on_ip (set_ip_DstAddr (ip_DstAddr ip_header)) reset in
  let reset := on_tcp (set_tcp_SrcPort (tcp_SrcPort tcp_header)) reset in
  let reset := on_tcp (set_tcp_DstPort (htons (port cfg))) reset in
  let reset := on_tcp (set_tcp_SeqNum (tcp_SeqNum tcp_header)) reset in
  let reset := on_tcp (set_tcp_AckNum (tcp_AckNum tcp_header)) reset in
  let reset := WinDivertHelperCalcChecksums reset [] addr in
  let out1 := send_or_warn (packet_frame reset) sizeof_PACKET addr
                "warning: failed to send reset packet" in
  (* (2) the block page to the browser *)
  let blockpage := blockpage f in
  let blockpage := on_header (on_ip (set_ip_SrcAddr (ip_DstAddr ip_header))) blockpage in
  let blockpage := on_header (on_ip (set_ip_DstAddr (ip_SrcAddr ip_header))) blockpage in
  let blockpage := on_header (on_tcp (set_tcp_DstPort (tcp_SrcPort tcp_header))) blockpage in
  let blockpage := on_header (on_tcp (set_tcp_SeqNum (tcp_AckNum tcp_header))) blockpage in
  let blockpage := on_header (on_tcp (set_tcp_AckNum
                     (htonl (ntohl (tcp_SeqNum tcp_header) + payload_len)))) blockpage in
  let addr := reverse_direction addr in
  let blockpage := on_header (fun h => WinDivertHelperCalcChecksums h (data blockpage) addr)
                     blockpage in
  let out2 := send_or_warn (data_frame blockpage) (blockpage_len f) addr
                "warning: failed to send block page packet" in
  (* (3) a TCP FIN to the browser *)
  let finish := finish f in
  let finish := on_ip (set_ip_SrcAddr (ip_DstAddr ip_header)) finish in
  let finish := on_ip (set_ip_DstAddr (ip_SrcAddr ip_header)) finish in
  let finish := on_tcp (set_tcp_SrcPort (htons (port cfg))) finish in
  let finish := on_tcp (set_tcp_DstPort (tcp_SrcPort tcp_header)) finish in
  let finish := on_tcp (set_tcp_SeqNum
                  (htonl (ntohl (tcp_AckNum tcp_header)
                          + Z.of_nat (strlen (responseData f))))) finish in
  let finish := on_tcp (set_tcp_AckNum
                  (htonl (ntohl (tcp_SeqNum tcp_header) + payload_len))) finish in
  let finish := WinDivertHelperCalcChecksums finish [] addr in
  let out3 := send_or_warn (packet_frame finish) sizeof_PACKET addr
                "warning: failed to send finish packet" in
  ({| responseData := responseData f;
      blockpage_len := blockpage_len f;
      blockpage := blockpage;
      reset := reset;
      finish := finish |},
   out1 ++ out2 ++ out3).

(** The packet does not match: it is sent on as it came. *)
Definition reinject (packet : list ascii) (packet_len : Z)
    (addr : WINDIVERT_ADDRESS) : list effect :=
  send_or_warn (raw_frame packet) packet_len addr
    "warning: failed to reinject packet".

(** One turn of [while (TRUE)]. *)
Definition loop_body (cfg : Config) (m : Machine) (r : received)
    : Machine * list effect :=
  match r with
  | recv_failed => (m, [Warning "warning: failed to read packet"])
  | recv_packet packet packet_len addr None =>
      (m, reinject packet packet_len addr)
  | recv_packet packet packet_len addr (Some p) =>
      let '(matched, c) :=
        HttpRequestPayloadMatch http_parser_execute cfg (classifier m)
          (payload p) (Z.to_nat (UINT16 (payload_len p))) in
      if matched then
        let '(f, out) := hijack cfg (forge m) addr p in
        ({| forge := f; classifier := c |}, out)
      else
        ({| forge := forge m; classifier := c |},
         reinject packet packet_len addr)
  end.

(** The loop over the packets received so far. *)
Fixpoint main_loop (cfg : Config) (m : Machine) (rs : list received)
    : Machine * list effect :=
  match rs with
  | [] => (m, [])
  | r :: rs' =>
      let '(m1, out1) := loop_body cfg m r in
      let '(m2, out2) := main_loop cfg m1 rs' in
      (m2, out1 ++ out2)
  end.

End Loop.

(** The classifier globals as the program starts: zero-initialised. *)
Definition initial_classifier : Classifier :=
  {| temp_header_complete := false;
     temp_is_hostheader := false;
     temp_host := repeat NUL 1024 |}.

(** The filter handed to [WinDivertOpen]:
    [outbound && [!]loopback && ip && tcp.DstPort == port &&
     tcp.PayloadLength > 0], on the fields the loop reads. *)
Definition passes_filter (cfg : Config) (a : WINDIVERT_ADDRESS) (p : Parsed)
    : Prop :=
  Direction a = 0 /\
  ip_Version (ip_header p) = 4 /\
  ntohs (tcp_DstPort (tcp_header p)) = port cfg /\
  0 < payload_len p < 2 ^ 16.

(* ================================================================== *)
(** ** A reference request parser *)

(** Modelled from the spec: the streaming request parser behind
    [http_parser.h] is an external library that is not part of the source
    tree. [request_parser] is a reduced model of its request state machine,
    used to run the classifier on concrete payloads: a request line
    [METHOD SP target SP HTTP/d.d CRLF], header lines [field: value CRLF]
    with continuation lines, and the empty line that ends the header block.
    Message bodies and the parser's header-specific states are left out.
    Data callbacks carry the offset and length of the marked bytes; a field,
    value or target cut by the end of the buffer is reported as far as it
    got; an error stops the parse at the offending byte. *)
Inductive pstate :=
| s_dead
| s_start_req
| s_req_method (seen : list ascii)
| s_req_spaces_before_url
| s_req_url (mark : nat)
| s_req_http_start
| s_req_http (expect : list ascii)
| s_req_http_major
| s_req_http_dot
| s_req_http_minor
| s_req_http_end
| s_req_line_almost_done
| s_header_field_start
| s_header_field (mark : nat)
| s_header_value_discard_ws
| s_header_value_discard_ws_almost_done
| s_header_value_discard_lws
| s_header_value (mark : nat)
| s_header_almost_done
| s_header_value_lws
| s_headers_almost_done.

Definition is_alpha (c : ascii) : bool :=
  ((65 <=? code c) && (code c <=? 90)) || ((97 <=? code c) && (code c <=? 122)).

Definition is_upper (c : ascii) : bool := (65 <=? code c) && (code c <=? 90).

(** The characters of a header field name. *)
Definition is_token (c : ascii) : bool :=
  is_alpha c || is_digit c ||
  existsb (Ascii.eqb c) (str "!#$%&'*+-.^_`|~").

Definition is_url_char (c : ascii) : bool :=
  (33 <=? code c) && negb (code c =? 127).

Definition is_header_char (c : ascii) : bool :=
  (code c =? 9) || ((32 <=? code c) && negb (code c =? 127)).

Definition list_ascii_eqb (a b : list ascii) : bool :=
  String.eqb (string_of_list_ascii a) (string_of_list_ascii b).

Definition http_methods : list (list ascii) :=
  map str ["GET"; "HEAD"; "POST"; "PUT"; "DELETE"; "OPTIONS"; "PATCH"; "TRACE"]%string.

(** A header line starts at byte [ch], offset [p]. *)
Definition header_field_start (p : nat) (ch : ascii) : pstate * list http_event :=
  if Ascii.eqb ch CR then (s_headers_almost_done, [])
  else if is_token ch then (s_header_field p, [])
  else (s_dead, []).

(** One byte [ch] at offset [p] in state [s]: the next state and the
    callbacks made. *)
Definition parser_step (s : pstate) (p : nat) (ch : ascii)
    : pstate * list http_event :=
  match s with
  | s_dead => (s_dead, [])
  | s_start_req =>
      if Ascii.eqb ch CR || Ascii.eqb ch LF then (s_start_req, [])
      else if is_upper ch then (s_req_method [ch], [])
      else (s_dead, [])
  | s_req_method seen =>
      if Ascii.eqb ch SP then
        if existsb (list_ascii_eqb seen) http_methods
        then (s_req_spaces_before_url, []) else (s_dead, [])
      else if is_upper ch then (s_req_method (seen ++ [ch]), [])
      else (s_dead, [])
  | s_req_spaces_before_url =>
      if Ascii.eqb ch SP then (s_req_spaces_before_url, [])
      else if Ascii.eqb ch "/" || Ascii.eqb ch "*" || is_alpha ch
      then (s_req_url p, [])
      else (s_dead, [])
  | s_req_url mark =>
      if Ascii.eqb ch SP then (s_req_http_start, [on_url mark (p - mark)])
      else if is_url_char ch then (s_req_url mark, [])
      else (s_dead, [])
  | s_req_http_start =>
      if Ascii.eqb ch SP then (s_req_http_start, [])
      else if Ascii.eqb ch "H" then (s_req_http (str "TTP/"), [])
      else (s_dead, [])
  | s_req_http expect =>
      match expect with
      | [] => (s_dead, [])
      | e :: rest =>
          if Ascii.eqb ch e
          then (match rest with [] => s_req_http_major | _ => s_req_http rest end, [])
          else (s_dead, [])
      end
  | s_req_http_major =>
      if is_digit ch then (s_req_http_dot, []) else (s_dead, [])
  | s_req_http_dot =>
      if Ascii.eqb ch "." then (s_req_http_minor, []) else (s_dead, [])
  | s_req_http_minor =>
      if is_digit ch then (s_req_http_end, []) else (s_dead, [])
  | s_req_http_end =>
      if Ascii.eqb ch CR then (s_req_line_almost_done, [])
      else if Ascii.eqb ch LF then (s_header_field_start, [])
      else (s_dead, [])
  | s_req_line_almost_done =>
      if Ascii.eqb ch LF then (s_header_field_start, []) else (s_dead, [])
  | s_header_field_start => header_field_start p ch
  | s_header_field mark =>
      if Ascii.eqb ch ":" then
        (s_header_value_discard_ws, [on_header_field mark (p - mark)])
      else if is_token ch then (s_header_field mark, [])
      else (s_dead, [])
  | s_header_value_discard_ws =>
      if Ascii.eqb ch SP || Ascii.eqb ch HT then (s_header_value_discard_ws, [])
      else if Ascii.eqb ch CR then (s_header_value_discard_ws_almost_done, [])
      else if Ascii.eqb ch LF then (s_header_value_discard_lws, [])
      else if is_header_char ch then (s_header_value p, [])
      else (s_dead, [])
  | s_header_value_discard_ws_almost_done =>
      if Ascii.eqb ch LF then (s_header_value_discard_lws, []) else (s_dead, [])
  | s_header_value_discard_lws =>
      if Ascii.eqb ch SP || Ascii.eqb ch HT then (s_header_value_discard_ws, [])
      else
        (* the value was empty *)
        let '(s', evs) := header_field_start p ch in
        (s', on_header_value p 0 :: evs)
  | s_header_value mark =>
      if Ascii.eqb ch CR then
        (s_header_almost_done, [on_header_value mark (p - mark)])
      else if is_header_char ch then (s_header_value mark, [])
      else (s_dead, [])
  | s_header_almost_done =>
      if Ascii.eqb ch LF then (s_header_value_lws, []) else (s_dead, [])
  | s_header_value_lws =>
      if Ascii.eqb ch SP || Ascii.eqb ch HT then (s_header_value p, [])
      else header_field_start p ch
  | s_headers_almost_done =>
      if Ascii.eqb ch LF then (s_start_req, [on_headers_complete])
      else (s_dead, [])
  end.

(** The bytes from offset [p] on, from state [s]: the callbacks, and the
    count of bytes consumed. At the end of the buffer a marked field, value
    or target is flushed. *)
Fixpoint parser_run (s : pstate) (p : nat) (bytes : list ascii)
    : list http_event * nat :=
  match bytes with
  | [] =>
      (match s with
       | s_req_url mark => [on_url mark (p - mark)]
       | s_header_field mark => [on_header_field mark (p - mark)]
       | s_header_value mark => [on_header_value mark (p - mark)]
       | _ => []
       end, p)
  | ch :: rest =>
      match parser_step s p ch with
      | (s_dead, evs) => (evs, p)
      | (s', evs) =>
          let '(evs', n) := parser_run s' (S p) rest in
          (evs ++ evs', n)
      end
  end.

Definition request_parser (bytes : list ascii) : list http_event * nat :=
  parser_run s_start_req 0 bytes.

(* ================================================================== *)
(** ** A reference checksum *)

(** Modelled from the spec: the checksum computation is delegated to the
    external transport capability. [internet_checksums] is the Internet
    checksum (one's-complement sum of 16-bit words) of the IPv4 header and
    of the TCP pseudo-header, header and payload, taken on the words as the
    little-endian host reads them; it stands for the library's
    computation when the loop is run on concrete packets. *)
Definition ip_words (h : WINDIVERT_IPHDR) : list Z :=
  [ ip_HdrLength h + 16 * ip_Version h + 256 * ip_TOS h;
    ip_Length h; ip_Id h; ip_FragOff0 h;
    ip_TTL h + 256 * ip_Protocol h;
    ip_Checksum h;
    Z.land (ip_SrcAddr h) 65535; Z.shiftr (ip_SrcAddr h) 16;
    Z.land (ip_DstAddr h) 65535; Z.shiftr (ip_DstAddr h) 16 ].

Definition tcp_words (h : WINDIVERT_TCPHDR) : list Z :=
  [ tcp_SrcPort h; tcp_DstPort h;
    Z.land (tcp_SeqNum h) 65535; Z.shiftr (tcp_SeqNum h) 16;
    Z.land (tcp_AckNum h) 65535; Z.shiftr (tcp_AckNum h) 16;
    tcp_Reserved1 h + 16 * tcp_HdrLength h + 256 * tcp_Fin h
      + 512 * tcp_Syn h + 1024 * tcp_Rst h + 2048 * tcp_Psh h
      + 4096 * tcp_Ack h + 8192 * tcp_Urg h + 16384 * tcp_Reserved2 h;
    tcp_Window h; tcp_Checksum h; tcp_UrgPtr h ].

Fixpoint data_words (d : list ascii) : list Z :=
  match d with
  | b0 :: b1 :: d' => (code b0 + 256 * code b1) :: data_words d'
  | [b0] => [code b0]
  | [] => []
  end.

Definition pseudo_words (p : PACKET) (d : list ascii) : list Z :=
  [ Z.land (ip_SrcAddr (ip p)) 65535; Z.shiftr (ip_SrcAddr (ip p)) 16;
    Z.land (ip_DstAddr (ip p)) 65535; Z.shiftr (ip_DstAddr (ip p)) 16;
    256 * ip_Protocol (ip p);
    htons (sizeof_WINDIVERT_TCPHDR + Z.of_nat (List.length d)) ].

Definition fold_carries (s : Z) : Z :=
  let s := Z.land s 65535 + Z.shiftr s 16 in
  Z.land s 65535 + Z.shiftr s 16.

Definition ones_complement_sum (ws : list Z) : Z :=
  Z.lxor (fold_carries (fold_left Z.add ws 0)) 65535.

Definition internet_checksums (p : PACKET) (d : list ascii)
    (a : WINDIVERT_ADDRESS) : Z * Z :=
  (ones_complement_sum (ip_words (ip p)),
   ones_complement_sum (pseudo_words p d ++ tcp_words (tcp p) ++ data_words d)).

(** A transport on which every send succeeds. *)
Definition send_succeeds (f : frame) (len : Z) (a : WINDIVERT_ADDRESS) : bool :=
  true.

(* ================================================================== *)
(** ** Reading the program's output *)

Definition initial_machine (f : Forge) : Machine :=
  {| forge := f; classifier := initial_classifier |}.

(** The machine states the program passes through: [main] started on
    [argv], and the loop has handled the packets [rs]. *)
Definition reachable
    (http_parser_execute : list ascii -> list http_event * nat)
    (checksums : PACKET -> list ascii -> WINDIVERT_ADDRESS -> Z * Z)
    (WinDivertSend : frame -> Z -> WINDIVERT_ADDRESS -> bool)
    (argv : list (list ascii)) (cfg : Config) (m : Machine) : Prop :=
  exists f0 rs,
    main_startup argv = started cfg f0 /\
    fst (main_loop http_parser_execute checksums WinDivertSend cfg
           (initial_machine f0) rs) = m.

(** The [WinDivertSend] calls among the effects, in order. *)
Fixpoint sends (out : list effect) : list (frame * Z * WINDIVERT_ADDRESS) :=
  match out with
  | [] => []
  | Send f len a :: out' => (f, len, a) :: sends out'
  | Warning _ :: out' => sends out'
  end.

(** The headers of the intercepted packet as one [PACKET]. *)
Definition observed (p : Parsed) : PACKET :=
  {| ip := ip_header p; tcp := tcp_header p |}.

(** The per-connection fields of a packet: addresses as stored, ports and
    sequence numbers in host order. *)
Definition src_addr (p : PACKET) : Z := ip_SrcAddr (ip p).
Definition dst_addr (p : PACKET) : Z := ip_DstAddr (ip p).
Definition src_port (p : PACKET) : Z := ntohs (tcp_SrcPort (tcp p)).
Definition dst_port (p : PACKET) : Z := ntohs (tcp_DstPort (tcp p)).
Definition seq_num (p : PACKET) : Z := ntohl (tcp_SeqNum (tcp p)).
Definition ack_num (p : PACKET) : Z := ntohl (tcp_AckNum (tcp p)).

(** The six per-connection fields as they lie in the header. *)
Definition connection_fields (p : PACKET) : Z * Z * Z * Z * Z * Z :=
  (ip_SrcAddr (ip p), ip_DstAddr (ip p),
   tcp_SrcPort (tcp p), tcp_DstPort (tcp p),
   tcp_SeqNum (tcp p), tcp_AckNum (tcp p)).

(** The checksum fields of [p] are the sums of the frame [p], [d] itself. *)
Definition checksum_valid
    (checksums : PACKET -> list ascii -> WINDIVERT_ADDRESS -> Z * Z)
    (p : PACKET) (d : list ascii) (a : WINDIVERT_ADDRESS) : Prop :=
  (ip_Checksum (ip p), tcp_Checksum (tcp p)) = checksums (zero_checksums p) d a.

(** *** Header events of a parse *)

(** The test [my_header_field_callback] makes on a field event. *)
Definition sets_hostheader (data : list ascii) (e : http_event) : bool :=
  match e with
  | on_header_field a n => _strnicmp (skipn a data) (str "host") 4 =? 0
  | _ => false
  end.

(** The field name of the event is [Host], in any letter case. *)
Definition names_host (data : list ascii) (a n : nat) : bool :=
  (n =? 4)%nat &&
  list_ascii_eqb (map tolower (read (skipn a data) n)) (str "host").

Definition is_field_named_host (data : list ascii) (e : http_event) : bool :=
  match e with
  | on_header_field a n => names_host data a n
  | _ => false
  end.

(** The bytes of a header value event. *)
Definition value_bytes (data : list ascii) (a n : nat) : list ascii :=
  read (skipn a data) n.

(** The parse reports a header named [Host] with the value [v]. *)
Definition has_host_header (data : list ascii) (events : list http_event)
    (v : list ascii) : Prop :=
  exists pre a n a' n' post,
    events = pre ++ on_header_field a n :: on_header_value a' n' :: post /\
    names_host data a n = true /\
    v = value_bytes data a' n'.

(** The same, and no later field name begins with [host]. *)
Definition has_last_host_header (data : list ascii) (events : list http_event)
    (v : list ascii) : Prop :=
  exists pre a n a' n' post,
    events = pre ++ on_header_field a n :: on_header_value a' n' :: post /\
    names_host data a n = true /\
    v = value_bytes data a' n' /\
    existsb (sets_hostheader data) post = false.

(** *** Reading an HTTP message *)

Fixpoint prefix_eqb (p s : list ascii) : bool :=
  match p, s with
  | [], _ => true
  | _ :: _, [] => false
  | a :: p', b :: s' => Ascii.eqb a b && prefix_eqb p' s'
  end.

(** The header block and the body: the text before and after the first
    empty line. *)
Fixpoint split_blank_line (s : list ascii) : option (list ascii * list ascii) :=
  match s with
  | [] => None
  | c :: s' =>
      if prefix_eqb (crlf ++ crlf) s then Some ([], skipn 3 s')
      else match split_blank_line s' with
           | Some (h, b) => Some (c :: h, b)
           | None => None
           end
  end.

Definition http_body (msg : list ascii) : option (list ascii) :=
  option_map snd (split_blank_line msg).

(** The lines of a header block: cut at LF, a CR before it dropped. *)
Fixpoint split_lf (s : list ascii) : list (list ascii) :=
  match s with
  | [] => [[]]
  | c :: s' =>
      if Ascii.eqb c LF then [] :: split_lf s'
      else match split_lf s' with
           | l :: ls => (c :: l) :: ls
           | [] => [[c]]
           end
  end.

Fixpoint before_colon (l : list ascii) : option (list ascii * list ascii) :=
  match l with
  | [] => None
  | c :: l' =>
      if Ascii.eqb c ":" then Some ([], l')
      else match before_colon l' with
           | Some (n, v) => Some (c :: n, v)
           | None => None
           end
  end.

Definition is_header_named (name : list ascii) (l : list ascii) : bool :=
  match before_colon l with
  | Some (n, _) => list_ascii_eqb (map tolower n) (map tolower name)
  | None => false
  end.

(** The number a message declares in its [Content-Length] header. *)
Definition content_length (msg : list ascii) : option Z :=
  match split_blank_line msg with
  | None => None
  | Some (h, _) =>
      match find (is_header_named (str "Content-Length")) (split_lf h) with
      | Some l =>
          match before_colon l with
          | Some (_, v) => Some (atoi v)
          | None => None
          end
      | None => None
      end
  end.

(* ================================================================== *)
(** ** Sample inputs *)

Definition sample_argv : list (list ascii) :=
  [str "httpfilter"; str "80"; str "blocked.example"; str "new.example";
   str "false"].

Definition sample_cfg : Config :=
  {| port := 80; loopback := false;
     target_url := str "blocked.example";
     new_host_url := str "new.example" |}.

(** A run with every external part fixed. *)
Definition sample_main_loop := main_loop request_parser internet_checksums send_succeeds.
Definition sample_loop_body := loop_body request_parser internet_checksums send_succeeds.
Definition sample_match (target : list ascii) (payload : list ascii) : bool :=
  fst (HttpRequestPayloadMatch request_parser
         {| port := 80; loopback := false; target_url := target;
            new_host_url := str "new.example" |}
         initial_classifier payload (List.length payload)).

(** A 50-byte request for the blocked host. *)
Definition sample_request : list ascii :=
  str "GET /index.htm HTTP/1.1" ++ crlf ++
  str "Host: BLOCKED.example" ++ crlf ++ crlf.

Definition sample_addr : WINDIVERT_ADDRESS :=
  {| IfIdx := 1; SubIfIdx := 0; Direction := 0 |}.

(** Client 10.0.0.2:49152 to server 192.0.2.7:80, sequence number 1000,
    acknowledgment number 4000. *)
Definition sample_parsed (payload : list ascii) : Parsed :=
  {| ip_header :=
       {| ip_HdrLength := 5; ip_Version := 4; ip_TOS := 0;
          ip_Length := htons (40 + Z.of_nat (List.length payload));
          ip_Id := 0; ip_FragOff0 := 0; ip_TTL := 128;
          ip_Protocol := IPPROTO_TCP; ip_Checksum := 0;
          ip_SrcAddr := htonl 167772162; ip_DstAddr := htonl 3221225991 |};
     tcp_header :=
       {| tcp_SrcPort := htons 49152; tcp_DstPort := htons 80;
          tcp_SeqNum := htonl 1000; tcp_AckNum := htonl 4000;
          tcp_Reserved1 := 0; tcp_HdrLength := 5;
          tcp_Fin := 0; tcp_Syn := 0; tcp_Rst := 0; tcp_Psh := 1;
          tcp_Ack := 1; tcp_Urg := 0; tcp_Reserved2 := 0;
          tcp_Window := htons 8192; tcp_Checksum := 0; tcp_UrgPtr := 0 |};
     payload := payload;
     payload_len := Z.of_nat (List.length payload) |}.

Definition sample_received (payload : list ascii) : received :=
  recv_packet [] (40 + Z.of_nat (List.length payload)) sample_addr
    (Some (sample_parsed payload)).

(* ================================================================== *)
(** ** Notions used in the statements *)

(** What the loop never changes in the templates. *)
Definition templates_of (cfg : Config) (f : Forge) : Prop :=
  responseData f = build_responseData (new_host_url cfg) /\
  blockpage_len f = UINT16 (sizeof_DATAPACKET + Z.of_nat (strlen (responseData f))) /\
  data (blockpage f) = memcpy [] (responseData f) (strlen (responseData f)) /\
  tcp_SrcPort (tcp (header (blockpage f))) = htons (port cfg) /\
  ip_Length (ip (header (blockpage f))) = htons (blockpage_len f).

(** The length [my_header_value_callback] copies. *)
Definition clamp (n : nat) : nat := if (1024 <=? n)%nat then 1023%nat else n.

(** The callbacks of a parse, applied in order. *)
Definition run (data : list ascii) (events : list http_event) (st : Classifier)
  : Classifier := fold_left (callback data) events st.

Definition is_complete (e : http_event) : bool :=
  match e with on_headers_complete => true | _ => false end.

(** Two states that agree on the flags and on the string in [temp_host]. *)
Definition same_view (s1 s2 : Classifier) : Prop :=
  temp_header_complete s1 = temp_header_complete s2 /\
  temp_is_hostheader s1 = temp_is_hostheader s2 /\
  c_str (temp_host s1) = c_str (temp_host s2).

(** A header block found in the rest of a text, behind [h]. *)
Definition lift_split (h : list ascii) (o : option (list ascii * list ascii))
  : option (list ascii * list ascii) :=
  match o with
  | Some (x, b) => Some (h ++ x, b)
  | None => None
  end.

(** The header lines of [response_tail]. *)
Definition response_mid : list ascii :=
  crlf ++ str "Date: Mon, 09 Jul 2018 06:27:33 GMT" ++ crlf ++ str "Content-Length:3".

(** *** More sample inputs *)

(** A replacement host of 600 characters. *)
Definition long_host_argv : list (list ascii) :=
  [str "httpfilter"; str "80"; str "blocked.example"; repeat "a"%char 600;
   str "false"].

Definition sample_forge : Forge := build_Forge 80 (str "new.example").

Definition request_line : list ascii := str "GET / HTTP/1.1" ++ crlf.

(** A matching Host header, but the header block is not finished. *)
Definition unfinished_request : list ascii :=
  request_line ++ str "Host: blocked.example" ++ crlf.

(** A complete request with no header at all. *)
Definition bare_request : list ascii := request_line ++ crlf.

(** A complete request whose only header name begins with [host]. *)
Definition hostx_request : list ascii :=
  request_line ++ str "Hostx: abc" ++ crlf ++ crlf.

(** A request the parser rejects at the blank in the field name. *)
Definition malformed_request : list ascii :=
  request_line ++ str "Ho st: blocked.example" ++ crlf ++ crlf.

Definition other_host_request : list ascii :=
  request_line ++ str "Host: other.example" ++ crlf ++ crlf.

(** A replacement host with an empty line in it. *)
Definition injected_argv : list (list ascii) :=
  [str "httpfilter"; str "80"; str "blocked.example";
   str "a" ++ crlf ++ crlf ++ str "b"; str "false"].

(* ================================================================== *)
(** ** Notions used in the further properties *)

(** The fields of a packet that no stamping writes: everything but the
    addresses, ports, sequence numbers and checksums. *)
Definition fixed_fields (p : PACKET)
    : (Z * Z * Z * Z * Z * Z * Z * Z) * (Z * Z * Z * Z * Z) * (Z * Z * Z * Z * Z * Z) :=
  ((ip_Version (ip p), ip_HdrLength (ip p), ip_TOS (ip p), ntohs (ip_Length (ip p)),
    ip_Id (ip p), ip_FragOff0 (ip p), ip_TTL (ip p), ip_Protocol (ip p)),
   (tcp_HdrLength (tcp p), tcp_Reserved1 (tcp p), tcp_Reserved2 (tcp p),
    tcp_Window (tcp p), tcp_UrgPtr (tcp p)),
   (tcp_Fin (tcp p), tcp_Syn (tcp p), tcp_Rst (tcp p),
    tcp_Psh (tcp p), tcp_Ack (tcp p), tcp_Urg (tcp p))).

(** The same fields as they lie in the header. *)
Definition fixed_part (p : PACKET) : WINDIVERT_IPHDR * WINDIVERT_TCPHDR :=
  (set_ip_DstAddr 0 (set_ip_SrcAddr 0 (set_ip_Checksum 0 (ip p))),
   set_tcp_AckNum 0 (set_tcp_SeqNum 0 (set_tcp_DstPort 0 (set_tcp_SrcPort 0
     (set_tcp_Checksum 0 (tcp p)))))).

(** Two sets of templates that differ at most in what a hijack overwrites. *)
Definition same_templates (f1 f2 : Forge) : Prop :=
  responseData f1 = responseData f2 /\
  blockpage_len f1 = blockpage_len f2 /\
  data (blockpage f1) = data (blockpage f2) /\
  tcp_SrcPort (tcp (header (blockpage f1))) = tcp_SrcPort (tcp (header (blockpage f2))) /\
  fixed_part (reset f1) = fixed_part (reset f2) /\
  fixed_part (header (blockpage f1)) = fixed_part (header (blockpage f2)) /\
  fixed_part (finish f1) = fixed_part (finish f2).

(** The lines written to the error stream. *)
Fixpoint warnings (out : list effect) : list string :=
  match out with
  | [] => []
  | Send _ _ _ :: out' => warnings out'
  | Warning msg :: out' => msg :: warnings out'
  end.

(** The sends that the transport refuses. *)
Definition failed_sends (WinDivertSend : frame -> Z -> WINDIVERT_ADDRESS -> bool)
    (out : list effect) : list (frame * Z * WINDIVERT_ADDRESS) :=
  filter (fun s => negb (WinDivertSend (fst (fst s)) (snd (fst s)) (snd s)))
    (sends out).

Definition is_raw_send (s : frame * Z * WINDIVERT_ADDRESS) : bool :=
  match fst (fst s) with
  | raw_frame _ => true
  | _ => false
  end.

(** What the loop sends on unchanged for one received item: the packet
    itself unless it parses and the classifier, from its initial state,
    matches its payload. *)
Definition passed_on
    (http_parser_execute : list ascii -> list http_event * nat)
    (cfg : Config) (r : received) : list (frame * Z * WINDIVERT_ADDRESS) :=
  match r with
  | recv_failed => []
  | recv_packet packet packet_len addr None =>
      [(raw_frame packet, packet_len, addr)]
  | recv_packet packet packet_len addr (Some p) =>
      if fst (HttpRequestPayloadMatch http_parser_execute cfg initial_classifier
                (payload p) (Z.to_nat (UINT16 (payload_len p))))
      then []
      else [(raw_frame packet, packet_len, addr)]
  end.

(** The parse reports a header whose name begins with [host], with the
    value [v], and no later field name begins with [host]. *)
Definition has_last_hostlike_header (data : list ascii)
    (events : list http_event) (v : list ascii) : Prop :=
  exists pre a n a' n' post,
    events = pre ++ on_header_field a n :: on_header_value a' n' :: post /\
    sets_hostheader data (on_header_field a n) = true /\
    v = value_bytes data a' n' /\
    existsb (sets_hostheader data) post = false.

(** [cfg] with another target. *)
Definition with_target (cfg : Config) (t : list ascii) : Config :=
  {| port := port cfg; loopback := loopback cfg;
     target_url := t; new_host_url := new_host_url cfg |}.

(** The sample request followed by a byte no request can start with. *)
Definition trailing_junk_request : list ascii := sample_request ++ str "!".

(* ================================================================== *)
(** * Properties *)

(** ** Byte order *)

Lemma testbit_land_255 x n :
  0 <= n -> Z.testbit (Z.land x 255) n = Z.testbit x n && (n <? 8).
Proof.
  intros Hn. change 255 with (Z.ones 8).
  rewrite Z.land_spec, Z.testbit_ones_nonneg by lia.
  destruct (Z.ltb_spec n 8); destruct (Z.leb_spec 0 n); simpl; try lia; reflexivity.
Qed.

Lemma testbit_byte_to x k j n :
  0 <= k -> 0 <= j -> 0 <= n ->
  Z.testbit (Z.shiftl (Z.land (Z.shiftr x k) 255) j) n =
  (j <=? n) && (n <? j + 8) && Z.testbit x (n - j + k).
Proof.
  intros Hk Hj Hn. destruct (Z.leb_spec j n).
  - rewrite Z.shiftl_spec, testbit_land_255, Z.shiftr_spec by lia.
    destruct (Z.ltb_spec (n - j) 8); destruct (Z.ltb_spec n (j + 8)); try lia; simpl;
      now rewrite ?andb_true_r, ?andb_false_r.
  - rewrite Z.shiftl_spec_low by lia. reflexivity.
Qed.

Ltac split_bit_ranges :=
  repeat match goal with
  | |- context [Z.ltb ?a ?b] => destruct (Z.ltb_spec a b); try lia
  | |- context [Z.leb ?a ?b] => destruct (Z.leb_spec a b); try lia
  end.

Lemma testbit_bswap16 x n :
  0 <= n ->
  Z.testbit (bswap16 x) n =
  if n <? 8 then Z.testbit x (n + 8)
  else if n <? 16 then Z.testbit x (n - 8) else false.
Proof.
  intros Hn. unfold bswap16.
  rewrite <- (Z.shiftr_0_r x) at 1.
  rewrite <- (Z.shiftl_0_r (Z.land (Z.shiftr x 8) 255)).
  rewrite !Z.lor_spec, !testbit_byte_to by lia.
  split_bit_ranges; simpl; rewrite ?orb_false_r; try reflexivity; f_equal; lia.
Qed.

Lemma testbit_bswap32 x n :
  0 <= n ->
  Z.testbit (bswap32 x) n =
  if n <? 8 then Z.testbit x (n + 24)
  else if n <? 16 then Z.testbit x (n + 8)
  else if n <? 24 then Z.testbit x (n - 8)
  else if n <? 32 then Z.testbit x (n - 24) else false.
Proof.
  intros Hn. unfold bswap32.
  rewrite <- (Z.shiftr_0_r x) at 1.
  rewrite <- (Z.shiftl_0_r (Z.land (Z.shiftr x 24) 255)).
  rewrite !Z.lor_spec, !testbit_byte_to by lia.
  split_bit_ranges; simpl; rewrite ?orb_false_r; try reflexivity; f_equal; lia.
Qed.

Lemma bswap16_involutive x : bswap16 (bswap16 x) = x mod 2 ^ 16.
Proof.
  apply Z.bits_inj'. intros n Hn.
  rewrite testbit_bswap16 by lia.
  destruct (Z.ltb_spec n 8); [|destruct (Z.ltb_spec n 16)];
    try (rewrite testbit_bswap16 by lia; split_bit_ranges;
         rewrite Z.mod_pow2_bits_low by lia; f_equal; lia).
  rewrite Z.mod_pow2_bits_high by lia. reflexivity.
Qed.

Lemma bswap32_involutive x : bswap32 (bswap32 x) = x mod 2 ^ 32.
Proof.
  apply Z.bits_inj'. intros n Hn.
  rewrite testbit_bswap32 by lia.
  destruct (Z.ltb_spec n 8);
    [|destruct (Z.ltb_spec n 16);
      [|destruct (Z.ltb_spec n 24); [|destruct (Z.ltb_spec n 32)]]];
    try (rewrite testbit_bswap32 by lia; split_bit_ranges;
         rewrite Z.mod_pow2_bits_low by lia; f_equal; lia).
  rewrite Z.mod_pow2_bits_high by lia. reflexivity.
Qed.

Lemma bswap16_mod x : bswap16 x mod 2 ^ 16 = bswap16 x.
Proof.
  apply Z.bits_inj'. intros n Hn.
  destruct (Z.ltb_spec n 16).
  - now rewrite Z.mod_pow2_bits_low by lia.
  - rewrite Z.mod_pow2_bits_high by lia.
    rewrite testbit_bswap16 by lia. split_bit_ranges; reflexivity.
Qed.

Lemma bswap32_mod x : bswap32 x mod 2 ^ 32 = bswap32 x.
Proof.
  apply Z.bits_inj'. intros n Hn.
  destruct (Z.ltb_spec n 32).
  - now rewrite Z.mod_pow2_bits_low by lia.
  - rewrite Z.mod_pow2_bits_high by lia.
    rewrite testbit_bswap32 by lia. split_bit_ranges; reflexivity.
Qed.

Lemma ntohs_htons x : ntohs (htons x) = x mod 2 ^ 16.
Proof.
  unfold ntohs, htons, UINT16.
  rewrite bswap16_mod, bswap16_involutive. apply Z.mod_mod. lia.
Qed.

Lemma ntohl_htonl x : ntohl (htonl x) = x mod 2 ^ 32.
Proof.
  unfold ntohl, htonl, UINT32.
  rewrite bswap32_mod, bswap32_involutive. apply Z.mod_mod. lia.
Qed.

Lemma ntohs_range x : 0 <= ntohs x < 2 ^ 16.
Proof.
  unfold ntohs. rewrite <- bswap16_mod. apply Z.mod_pos_bound. lia.
Qed.

Lemma ntohl_range x : 0 <= ntohl x < 2 ^ 32.
Proof.
  unfold ntohl. rewrite <- bswap32_mod. apply Z.mod_pos_bound. lia.
Qed.

(** ** The forged packets *)

Lemma sends_app out1 out2 : sends (out1 ++ out2) = sends out1 ++ sends out2.
Proof.
  induction out1 as [|e out1 IH]; simpl; [reflexivity|].
  destruct e; simpl; now rewrite IH.
Qed.

Lemma zero_checksums_idem p ci ct :
  zero_checksums (on_tcp (set_tcp_Checksum ct) (on_ip (set_ip_Checksum ci) (zero_checksums p)))
  = zero_checksums p.
Proof. destruct p as [[] []]. reflexivity. Qed.

Section Forged.

Variable http_parser_execute : list ascii -> list http_event * nat.
Variable checksums : PACKET -> list ascii -> WINDIVERT_ADDRESS -> Z * Z.
Variable WinDivertSend : frame -> Z -> WINDIVERT_ADDRESS -> bool.

Local Abbreviation CalcChecksums := (WinDivertHelperCalcChecksums checksums).
Local Abbreviation Hijack := (hijack checksums WinDivertSend).
Local Abbreviation LoopBody := (loop_body http_parser_execute checksums WinDivertSend).
Local Abbreviation MainLoop := (main_loop http_parser_execute checksums WinDivertSend).
Local Abbreviation Match := (HttpRequestPayloadMatch http_parser_execute).

Lemma sends_send_or_warn f len a msg :
  sends (send_or_warn WinDivertSend f len a msg) = [(f, len, a)].
Proof. unfold send_or_warn. destruct (WinDivertSend f len a); reflexivity. Qed.

Lemma CalcChecksums_connection_fields p d a :
  connection_fields (CalcChecksums p d a) = connection_fields p.
Proof.
  unfold WinDivertHelperCalcChecksums.
  destruct (checksums (zero_checksums p) d a). reflexivity.
Qed.

Lemma CalcChecksums_ip_Length p d a :
  ip_Length (ip (CalcChecksums p d a)) = ip_Length (ip p).
Proof.
  unfold WinDivertHelperCalcChecksums.
  destruct (checksums (zero_checksums p) d a). reflexivity.
Qed.

Lemma CalcChecksums_valid p d a :
  checksum_valid checksums (CalcChecksums p d a) d a.
Proof.
  unfold checksum_valid, WinDivertHelperCalcChecksums.
  destruct (checksums (zero_checksums p) d a) as [ci ct] eqn:E.
  rewrite zero_checksums_idem, E. reflexivity.
Qed.

Lemma CalcChecksums_fixpoint p d a :
  checksum_valid checksums p d a -> CalcChecksums p d a = p.
Proof.
  unfold checksum_valid, WinDivertHelperCalcChecksums. intros <-.
  destruct p as [[] []]. reflexivity.
Qed.

(** The three sends of a hijack carry the packets left in the templates. *)
Lemma hijack_sends cfg f a p :
  let f' := fst (Hijack cfg f a p) in
  sends (snd (Hijack cfg f a p)) =
  [ (packet_frame (reset f'), sizeof_PACKET, a);
    (data_frame (blockpage f'), blockpage_len f, reverse_direction a);
    (packet_frame (finish f'), sizeof_PACKET, reverse_direction a) ].
Proof.
  unfold hijack. cbn [fst snd reset blockpage finish].
  rewrite !sends_app, !sends_send_or_warn. reflexivity.
Qed.

Lemma hijack_reset_fields cfg f a p :
  connection_fields (reset (fst (Hijack cfg f a p))) =
  (ip_SrcAddr (ip_header p), ip_DstAddr (ip_header p),
   tcp_SrcPort (tcp_header p), htons (port cfg),
   tcp_SeqNum (tcp_header p), tcp_AckNum (tcp_header p)).
Proof.
  unfold hijack. cbn [fst reset].
  rewrite CalcChecksums_connection_fields. reflexivity.
Qed.

Lemma hijack_blockpage_fields cfg f a p :
  connection_fields (header (blockpage (fst (Hijack cfg f a p)))) =
  (ip_DstAddr (ip_header p), ip_SrcAddr (ip_header p),
   tcp_SrcPort (tcp (header (blockpage f))), tcp_SrcPort (tcp_header p),
   tcp_AckNum (tcp_header p),
   htonl (ntohl (tcp_SeqNum (tcp_header p)) + payload_len p)).
Proof.
  unfold hijack. cbn [fst blockpage on_header header].
  rewrite CalcChecksums_connection_fields. reflexivity.
Qed.

Lemma hijack_finish_fields cfg f a p :
  connection_fields (finish (fst (Hijack cfg f a p))) =
  (ip_DstAddr (ip_header p), ip_SrcAddr (ip_header p),
   htons (port cfg), tcp_SrcPort (tcp_header p),
   htonl (ntohl (tcp_AckNum (tcp_header p)) + Z.of_nat (strlen (responseData f))),
   htonl (ntohl (tcp_SeqNum (tcp_header p)) + payload_len p)).
Proof.
  unfold hijack. cbn [fst finish].
  rewrite CalcChecksums_connection_fields. reflexivity.
Qed.

Lemma hijack_blockpage_data cfg f a p :
  data (blockpage (fst (Hijack cfg f a p))) = data (blockpage f).
Proof. reflexivity. Qed.

Lemma hijack_checksums_valid cfg f a p :
  let f' := fst (Hijack cfg f a p) in
  checksum_valid checksums (reset f') [] a /\
  checksum_valid checksums (header (blockpage f')) (data (blockpage f'))
    (reverse_direction a) /\
  checksum_valid checksums (finish f') [] (reverse_direction a).
Proof.
  unfold hijack. cbn [fst reset blockpage finish on_header header data].
  repeat split; apply CalcChecksums_valid.
Qed.

Lemma hijack_blockpage_ip_Length cfg f a p :
  ip_Length (ip (header (blockpage (fst (Hijack cfg f a p))))) =
  ip_Length (ip (header (blockpage f))).
Proof.
  unfold hijack. cbn [fst blockpage on_header header].
  rewrite CalcChecksums_ip_Length. reflexivity.
Qed.

Lemma hijack_templates cfg f a p :
  templates_of cfg f -> templates_of cfg (fst (Hijack cfg f a p)).
Proof.
  intros (H1 & H2 & H3 & H4 & H5).
  assert (Hp : tcp_SrcPort (tcp (header (blockpage (fst (Hijack cfg f a p))))) =
               tcp_SrcPort (tcp (header (blockpage f)))).
  { pose proof (hijack_blockpage_fields cfg f a p) as Hb.
    unfold connection_fields in Hb. congruence. }
  unfold templates_of.
  rewrite Hp, hijack_blockpage_ip_Length. repeat split; assumption.
Qed.

Lemma build_Forge_templates cfg :
  templates_of cfg (build_Forge (port cfg) (new_host_url cfg)).
Proof. repeat split. Qed.

Lemma main_startup_templates argv cfg f :
  main_startup argv = started cfg f -> templates_of cfg f.
Proof.
  unfold main_startup.
  destruct argv as [|a0 [|a1 [|a2 [|a3 [|a4 [|? ?]]]]]]; try discriminate.
  destruct (_ || _); [discriminate|].
  intros H. injection H as <- <-. apply build_Forge_templates.
Qed.

Lemma loop_body_matched cfg m packet packet_len addr p :
  fst (Match cfg (classifier m) (payload p) (Z.to_nat (UINT16 (payload_len p)))) = true ->
  LoopBody cfg m (recv_packet packet packet_len addr (Some p)) =
  ({| forge := fst (Hijack cfg (forge m) addr p);
      classifier := snd (Match cfg (classifier m) (payload p)
                           (Z.to_nat (UINT16 (payload_len p)))) |},
   snd (Hijack cfg (forge m) addr p)).
Proof.
  intros H. unfold loop_body.
  destruct (Match _ _ _ _) as [b c]. simpl in H. subst b.
  destruct (Hijack _ _ _ _). reflexivity.
Qed.

Lemma loop_body_templates cfg m r :
  templates_of cfg (forge m) ->
  templates_of cfg (forge (fst (LoopBody cfg m r))).
Proof.
  intros H. destruct r as [|packet packet_len addr [p|]]; try exact H.
  unfold loop_body.
  destruct (Match _ _ _ _) as [[|] c]; [|exact H].
  pose proof (hijack_templates cfg (forge m) addr p H) as H'.
  destruct (Hijack cfg (forge m) addr p) as [f out]. exact H'.
Qed.

Lemma main_loop_templates cfg rs : forall m,
  templates_of cfg (forge m) ->
  templates_of cfg (forge (fst (MainLoop cfg m rs))).
Proof.
  induction rs as [|r rs IH]; intros m H; simpl; [assumption|].
  pose proof (loop_body_templates cfg m r H) as H1.
  destruct (LoopBody cfg m r) as [m1 out1]. simpl in H1.
  specialize (IH m1 H1).
  destruct (MainLoop cfg m1 rs) as [m2 out2]. exact IH.
Qed.

Lemma reachable_templates argv cfg m :
  reachable http_parser_execute checksums WinDivertSend argv cfg m ->
  templates_of cfg (forge m).
Proof.
  intros (f0 & rs & Hs & <-).
  apply main_loop_templates. apply (main_startup_templates _ _ _ Hs).
Qed.

End Forged.

(** ** Buffers *)

Lemma strlen_le_length s : (strlen s <= List.length s)%nat.
Proof.
  induction s as [|c s IH]; simpl; [lia|].
  destruct (Ascii.eqb c NUL); lia.
Qed.

Lemma length_read s n : List.length (read s n) = n.
Proof. revert s. induction n as [|n IH]; intros s; simpl; [reflexivity|]. now rewrite IH. Qed.

Lemma length_c_str s : List.length (c_str s) = strlen s.
Proof.
  unfold c_str. rewrite length_firstn. pose proof (strlen_le_length s). lia.
Qed.

Lemma read_firstn s n : (n <= List.length s)%nat -> read s n = firstn n s.
Proof.
  revert s. induction n as [|n IH]; intros s Hn; [reflexivity|].
  destruct s as [|c s]; simpl in *; [lia|]. rewrite IH by lia. reflexivity.
Qed.

Lemma memcpy_nil s : memcpy [] s (strlen s) = c_str s.
Proof.
  unfold memcpy, c_str. rewrite skipn_nil, app_nil_r.
  apply read_firstn, strlen_le_length.
Qed.

Lemma length_build_responseData h :
  List.length (build_responseData h) = (139 + List.length h)%nat.
Proof.
  unfold build_responseData, strcat. rewrite !length_app. simpl. lia.
Qed.

Lemma main_startup_bounds argv cfg f :
  main_startup argv = started cfg f ->
  (List.length (target_url cfg) < 1024)%nat /\
  (List.length (new_host_url cfg) < 1024)%nat.
Proof.
  unfold main_startup.
  destruct argv as [|a0 [|a1 [|a2 [|a3 [|a4 [|? ?]]]]]]; try discriminate.
  destruct (Nat.leb_spec 1024 (strlen a2)); [discriminate|].
  destruct (Nat.leb_spec 1024 (strlen a3)); [discriminate|].
  simpl. intros E. injection E as <- _. simpl.
  rewrite !length_c_str. lia.
Qed.

Lemma main_startup_forge argv cfg f :
  main_startup argv = started cfg f ->
  f = build_Forge (port cfg) (new_host_url cfg).
Proof.
  unfold main_startup.
  destruct argv as [|a0 [|a1 [|a2 [|a3 [|a4 [|? ?]]]]]]; try discriminate.
  destruct (_ || _); [discriminate|].
  intros E. injection E as <- <-. reflexivity.
Qed.

Section Stamping.

Variable http_parser_execute : list ascii -> list http_event * nat.
Variable checksums : PACKET -> list ascii -> WINDIVERT_ADDRESS -> Z * Z.
Variable WinDivertSend : frame -> Z -> WINDIVERT_ADDRESS -> bool.

Local Abbreviation Hijack := (hijack checksums WinDivertSend).
Local Abbreviation Reachable := (reachable http_parser_execute checksums WinDivertSend).

Lemma reachable_response_length argv cfg m :
  Reachable argv cfg m ->
  (strlen (responseData (forge m)) <= 1162)%nat.
Proof.
  intros Hr. pose proof (reachable_templates _ _ _ _ _ _ Hr) as (H1 & _).
  destruct Hr as (f0 & rs & Hs & _).
  pose proof (main_startup_bounds _ _ _ Hs) as [_ Hn].
  rewrite H1. pose proof (strlen_le_length (build_responseData (new_host_url cfg))).
  rewrite length_build_responseData in *. lia.
Qed.

(** C1. For every packet the filter lets through and the classifier
    matches, at any point of the run, the loop sends three packets; the
    first (RST) carries the client's addresses and source port, the
    configured port as destination port, and the observed sequence and
    acknowledgment numbers; the second (Redirect) carries the addresses
    swapped, the configured port as source port, the client's port as
    destination port, the observed acknowledgment number as sequence
    number, and the observed sequence number plus the payload length,
    modulo 2^32, as acknowledgment number. *)
Theorem C1_reset_and_redirect_stamping :
  forall argv cfg m packet packet_len addr p,
    reachable http_parser_execute checksums WinDivertSend argv cfg m ->
    passes_filter cfg addr p ->
    fst (HttpRequestPayloadMatch http_parser_execute cfg (classifier m)
           (payload p) (Z.to_nat (UINT16 (payload_len p)))) = true ->
    let o := observed p in
    let P := port cfg in
    let S := seq_num o in
    let A := ack_num o in
    let L := payload_len p in
    exists rst red fin a1 a2 a3 n1 n2 n3,
      sends (snd (loop_body http_parser_execute checksums WinDivertSend cfg m
                    (recv_packet packet packet_len addr (Some p)))) =
        [(packet_frame rst, n1, a1); (data_frame red, n2, a2);
         (packet_frame fin, n3, a3)] /\
      (src_addr rst = src_addr o /\ dst_addr rst = dst_addr o /\
       src_port rst = src_port o /\ dst_port rst = P /\
       seq_num rst = S /\ ack_num rst = A) /\
      (src_addr (header red) = dst_addr o /\ dst_addr (header red) = src_addr o /\
       src_port (header red) = P /\ dst_port (header red) = src_port o /\
       seq_num (header red) = A /\ ack_num (header red) = (S + L) mod 2 ^ 32).
Proof.
  intros argv cfg m packet packet_len addr p Hr Hf Hm o P S A L.
  pose proof (reachable_templates _ _ _ _ _ _ Hr) as (_ & _ & _ & Hport & _).
  destruct Hf as (_ & _ & HP & _).
  assert (HPr : P mod 2 ^ 16 = P).
  { unfold P. rewrite <- HP. apply Z.mod_small, ntohs_range. }
  rewrite (loop_body_matched _ _ _ _ _ _ _ _ _ Hm). cbn [snd].
  rewrite hijack_sends.
  pose proof (hijack_reset_fields checksums WinDivertSend cfg (forge m) addr p) as Hrst.
  pose proof (hijack_blockpage_fields checksums WinDivertSend cfg (forge m) addr p) as Hred.
  remember (fst (Hijack cfg (forge m) addr p)) as f' eqn:Ef'.
  unfold connection_fields in Hrst, Hred.
  injection Hrst as R1 R2 R3 R4 R5 R6. injection Hred as B1 B2 B3 B4 B5 B6.
  do 9 eexists. split; [reflexivity|].
  unfold src_addr, dst_addr, src_port, dst_port, seq_num, ack_num, o, observed.
  cbn [ip tcp]. rewrite R1, R2, R3, R4, R5, R6, B1, B2, B3, B4, B5, B6, Hport.
  rewrite ntohs_htons, ntohl_htonl.
  repeat split; try reflexivity; exact HPr.
Qed.

(** C2. For every such packet the third packet sent (FIN) carries the
    server's address as source and the client's as destination, the
    configured port as source port and the client's port as destination
    port; its sequence number is the Redirect's sequence number, which is
    the observed acknowledgment number, plus the length of the Redirect's
    payload, and its acknowledgment number is the observed sequence number
    plus the payload length, both modulo 2^32. With sequence number 1000,
    acknowledgment number 4000 and payload length 50 observed, the FIN has
    sequence number 4000 plus the length of the response text and
    acknowledgment number 1050. *)
Theorem C2_finish_stamping :
  forall argv cfg m packet packet_len addr p,
    reachable http_parser_execute checksums WinDivertSend argv cfg m ->
    passes_filter cfg addr p ->
    fst (HttpRequestPayloadMatch http_parser_execute cfg (classifier m)
           (payload p) (Z.to_nat (UINT16 (payload_len p)))) = true ->
    let o := observed p in
    let P := port cfg in
    let S := seq_num o in
    let A := ack_num o in
    let L := payload_len p in
    exists rst red fin a1 a2 a3 n1 n2 n3,
      sends (snd (loop_body http_parser_execute checksums WinDivertSend cfg m
                    (recv_packet packet packet_len addr (Some p)))) =
        [(packet_frame rst, n1, a1); (data_frame red, n2, a2);
         (packet_frame fin, n3, a3)] /\
      let body := Z.of_nat (List.length (data red)) in
      src_addr fin = dst_addr o /\ dst_addr fin = src_addr o /\
      src_port fin = P /\ dst_port fin = src_port o /\
      seq_num (header red) = A /\
      seq_num fin = (seq_num (header red) + body) mod 2 ^ 32 /\
      ack_num fin = (S + L) mod 2 ^ 32 /\
      body = Z.of_nat (strlen (build_responseData (new_host_url cfg))) /\
      (S = 1000 -> A = 4000 -> L = 50 ->
       seq_num fin = 4000 + body /\ ack_num fin = 1050).
Proof.
  intros argv cfg m packet packet_len addr p Hr Hf Hm o P S A L.
  pose proof (reachable_response_length _ _ _ Hr) as Hlen.
  pose proof (reachable_templates _ _ _ _ _ _ Hr) as (Hrd & _ & Hdata & Hport & _).
  destruct Hf as (_ & _ & HP & _).
  assert (HPr : P mod 2 ^ 16 = P).
  { unfold P. rewrite <- HP. apply Z.mod_small, ntohs_range. }
  rewrite (loop_body_matched _ _ _ _ _ _ _ _ _ Hm). cbn [snd].
  rewrite hijack_sends.
  pose proof (hijack_finish_fields checksums WinDivertSend cfg (forge m) addr p) as Hfin.
  pose proof (hijack_blockpage_fields checksums WinDivertSend cfg (forge m) addr p) as Hred.
  remember (fst (Hijack cfg (forge m) addr p)) as f' eqn:Ef'.
  unfold connection_fields in Hfin, Hred.
  injection Hfin as F1 F2 F3 F4 F5 F6. injection Hred as B1 B2 B3 B4 B5 B6.
  do 9 eexists. split; [reflexivity|].
  replace (data (blockpage f')) with (data (blockpage (forge m)))
    by (rewrite Ef'; reflexivity).
  rewrite Hdata.
  unfold memcpy. rewrite length_app, length_read, skipn_nil. cbn [List.length].
  rewrite Nat.add_0_r.
  unfold src_addr, dst_addr, src_port, dst_port, seq_num, ack_num, o, observed.
  cbn [ip tcp]. rewrite F1, F2, F3, F4, F5, F6, B5.
  rewrite ntohs_htons, !ntohl_htonl.
  assert (HS : ntohl (tcp_SeqNum (tcp_header p)) = S) by reflexivity.
  assert (HA : ntohl (tcp_AckNum (tcp_header p)) = A) by reflexivity.
  rewrite HS, HA. change (payload_len p) with L.
  repeat (split; [first [reflexivity | exact HPr | now rewrite Hrd]|]).
  intros ES EA EL. rewrite ES, EA, EL.
  split; [apply Z.mod_small; lia | reflexivity].
Qed.

(** C8. For every such packet each of the three packets handed to
    [WinDivertSend] carries the checksums of its own final content: its
    checksum fields are the sums computed over the very packet that is
    sent, with the addresses, ports, sequence and acknowledgment numbers
    it is sent with. *)
Theorem C8_checksums_after_stamping :
  forall cfg m packet packet_len addr p,
    fst (HttpRequestPayloadMatch http_parser_execute cfg (classifier m)
           (payload p) (Z.to_nat (UINT16 (payload_len p)))) = true ->
    exists rst red fin a1 a2 a3 n1 n2 n3,
      sends (snd (loop_body http_parser_execute checksums WinDivertSend cfg m
                    (recv_packet packet packet_len addr (Some p)))) =
        [(packet_frame rst, n1, a1); (data_frame red, n2, a2);
         (packet_frame fin, n3, a3)] /\
      checksum_valid checksums rst [] a1 /\
      checksum_valid checksums (header red) (data red) a2 /\
      checksum_valid checksums fin [] a3 /\
      rst = WinDivertHelperCalcChecksums checksums rst [] a1 /\
      header red = WinDivertHelperCalcChecksums checksums (header red) (data red) a2 /\
      fin = WinDivertHelperCalcChecksums checksums fin [] a3.
Proof.
  intros cfg m packet packet_len addr p Hm.
  rewrite (loop_body_matched _ _ _ _ _ _ _ _ _ Hm). cbn [snd].
  rewrite hijack_sends.
  pose proof (hijack_checksums_valid checksums WinDivertSend cfg (forge m) addr p)
    as (V1 & V2 & V3).
  do 9 eexists. split; [reflexivity|].
  repeat split; try assumption; symmetry; apply CalcChecksums_fixpoint; assumption.
Qed.

(** C9, amended. There is no length check: for every such packet the
    Redirect is handed to [WinDivertSend] whole, with the length of the
    headers plus the response text, which is also the total length its IP
    header declares; with the program's buffers that is at most 1202
    bytes. *)
Theorem C9_redirect_sent_whatever_its_length :
  forall argv cfg m packet packet_len addr p,
    reachable http_parser_execute checksums WinDivertSend argv cfg m ->
    fst (HttpRequestPayloadMatch http_parser_execute cfg (classifier m)
           (payload p) (Z.to_nat (UINT16 (payload_len p)))) = true ->
    exists rst red fin a1 a2 a3 n1 n2 n3,
      sends (snd (loop_body http_parser_execute checksums WinDivertSend cfg m
                    (recv_packet packet packet_len addr (Some p)))) =
        [(packet_frame rst, n1, a1); (data_frame red, n2, a2);
         (packet_frame fin, n3, a3)] /\
      n2 = sizeof_DATAPACKET + Z.of_nat (List.length (data red)) /\
      ip_Length (ip (header red)) = htons n2 /\
      data red = c_str (build_responseData (new_host_url cfg)) /\
      n2 <= 1202.
Proof.
  intros argv cfg m packet packet_len addr p Hr Hm.
  pose proof (reachable_response_length _ _ _ Hr) as Hlen.
  pose proof (reachable_templates _ _ _ _ _ _ Hr) as (Hrd & Hbl & Hdata & _ & Hip).
  rewrite (loop_body_matched _ _ _ _ _ _ _ _ _ Hm). cbn [snd].
  rewrite hijack_sends.
  do 9 eexists. split; [reflexivity|].
  rewrite hijack_blockpage_ip_Length, hijack_blockpage_data, Hdata, Hip, Hbl.
  rewrite memcpy_nil, length_c_str.
  assert (Hsmall : UINT16 (sizeof_DATAPACKET + Z.of_nat (strlen (responseData (forge m))))
                   = sizeof_DATAPACKET + Z.of_nat (strlen (responseData (forge m)))).
  { apply Z.mod_small. unfold sizeof_DATAPACKET, sizeof_PACKET,
      sizeof_WINDIVERT_IPHDR, sizeof_WINDIVERT_TCPHDR. lia. }
  rewrite Hsmall, Hrd. repeat split.
  rewrite <- Hrd. unfold sizeof_DATAPACKET, sizeof_PACKET,
    sizeof_WINDIVERT_IPHDR, sizeof_WINDIVERT_TCPHDR. lia.
Qed.

End Stamping.

(** ** C strings *)

Lemma code_NUL_iff c : code c = 0 <-> c = NUL.
Proof.
  unfold code, NUL. split.
  - intros H. assert (HN : N_of_ascii c = 0%N) by lia.
    rewrite <- (ascii_N_embedding c), HN. reflexivity.
  - intros ->. reflexivity.
Qed.

Lemma tolower_NUL_iff c : tolower c = NUL <-> c = NUL.
Proof.
  split; [|intros ->; reflexivity].
  unfold tolower.
  destruct ((65 <=? code c) && (code c <=? 90)) eqn:E; [|auto].
  intros H. exfalso.
  apply andb_prop in E as [E1 E2]. apply Z.leb_le in E1, E2.
  assert (Hc : N_of_ascii (ascii_of_N (N_of_ascii c + 32)) = (N_of_ascii c + 32)%N).
  { apply N_ascii_embedding. unfold code in *. lia. }
  rewrite H in Hc. simpl in Hc. lia.
Qed.

Lemma peek_app_NUL v r : peek (v ++ NUL :: r) = peek v.
Proof. destruct v; reflexivity. Qed.

(** A comparison reads its second argument up to the terminator only. *)
Lemma _stricmp_app_NUL t : forall v r, _stricmp t (v ++ NUL :: r) = _stricmp t v.
Proof.
  induction t as [|c t IH]; intros v r; simpl.
  - now rewrite peek_app_NUL.
  - rewrite peek_app_NUL.
    destruct (Ascii.eqb (tolower c) (tolower (peek v))) eqn:E; [|reflexivity].
    destruct (Ascii.eqb (tolower c) NUL) eqn:E0; [reflexivity|].
    destruct v as [|x v]; simpl.
    + apply Ascii.eqb_eq in E. change (tolower (peek [])) with NUL in E.
      rewrite E in E0. discriminate.
    + apply IH.
Qed.

Lemma _stricmp_c_str t s : _stricmp t (c_str s) = _stricmp t s.
Proof.
  unfold c_str. revert t. induction s as [|x s IH]; intros t; [reflexivity|].
  simpl strlen. destruct (Ascii.eqb x NUL) eqn:E.
  - apply Ascii.eqb_eq in E. subst x. simpl firstn.
    symmetry. apply (_stricmp_app_NUL t [] s).
  - simpl firstn. destruct t as [|c t]; simpl; [reflexivity|].
    destruct (Ascii.eqb (tolower c) (tolower x)); [|reflexivity].
    destruct (Ascii.eqb (tolower c) NUL); [reflexivity|]. apply IH.
Qed.

Lemma c_str_app_NUL v r : c_str (v ++ NUL :: r) = c_str v.
Proof.
  unfold c_str. induction v as [|x v IH]; simpl; [reflexivity|].
  destruct (Ascii.eqb x NUL); [reflexivity|]. simpl. now rewrite IH.
Qed.

Lemma _stricmp_nil_r t : _stricmp t [] = 0 <-> strlen t = 0%nat.
Proof.
  destruct t as [|c t]; simpl; [split; reflexivity|].
  change (tolower NUL) with NUL.
  destruct (Ascii.eqb (tolower c) NUL) eqn:E.
  - apply Ascii.eqb_eq in E. apply (proj1 (tolower_NUL_iff c)) in E. rewrite E.
    simpl. split; reflexivity.
  - assert (Hc : c <> NUL).
    { intros ->. rewrite Ascii.eqb_refl in E. discriminate. }
    assert (Ht : tolower c <> NUL) by (now rewrite tolower_NUL_iff).
    destruct (Ascii.eqb c NUL) eqn:E1; [apply Ascii.eqb_eq in E1; contradiction|].
    change (code NUL) with 0. split; [|discriminate].
    intros H. exfalso. apply Ht, code_NUL_iff. lia.
Qed.

(** ** Writes to [temp_host] *)

Lemma poke_app_length v b c : poke (v ++ b) (List.length v) c = v ++ poke b 0 c.
Proof. induction v as [|x v IH]; simpl; [reflexivity|]. now rewrite IH. Qed.

Lemma length_poke b i c : List.length (poke b i c) = List.length b.
Proof.
  revert i. induction b as [|x b IH]; intros i; [reflexivity|].
  destruct i; simpl; [reflexivity|]. now rewrite IH.
Qed.

(** The buffer after [memcpy] and the terminator holds the copied bytes as
    its string, whatever it held before. *)
Lemma c_str_captured buf src n :
  c_str (poke (memcpy buf src n) n NUL) = c_str (read src n).
Proof.
  unfold memcpy.
  replace (poke (read src n ++ skipn n buf) n NUL)
    with (read src n ++ poke (skipn n buf) 0 NUL)
    by (rewrite <- (poke_app_length (read src n)), length_read; reflexivity).
  destruct (skipn n buf) as [|x r]; simpl poke.
  - now rewrite app_nil_r.
  - apply c_str_app_NUL.
Qed.

Lemma length_captured buf src n :
  (n < List.length buf)%nat ->
  List.length (poke (memcpy buf src n) n NUL) = List.length buf.
Proof.
  intros H. rewrite length_poke. unfold memcpy.
  rewrite length_app, length_read, length_skipn. lia.
Qed.

Lemma c_str_poke_0 buf : c_str (poke buf 0 NUL) = [].
Proof. destruct buf; reflexivity. Qed.

Lemma read_min s : forall n k, firstn k (read s n) = read s (Nat.min k n).
Proof.
  intros n. revert s. induction n as [|n IH]; intros s k; simpl.
  - rewrite Nat.min_0_r. now destruct k.
  - destruct k; simpl; [reflexivity|]. now rewrite IH.
Qed.

Lemma read_clamp s n : read s (clamp n) = firstn 1023 (read s n).
Proof.
  rewrite read_min. unfold clamp. f_equal.
  destruct (Nat.leb_spec 1024 n); lia.
Qed.

(** ** The callbacks over a parse *)

Lemma callback_url data st a n : callback data st (on_url a n) = st.
Proof. reflexivity. Qed.

Lemma callback_field data st a n :
  callback data st (on_header_field a n) =
  {| temp_header_complete := temp_header_complete st;
     temp_is_hostheader := sets_hostheader data (on_header_field a n);
     temp_host := temp_host st |}.
Proof.
  cbn [callback sets_hostheader]. unfold my_header_field_callback.
  destruct (_ =? 0); reflexivity.
Qed.

Lemma callback_value data st a n :
  callback data st (on_header_value a n) =
  if temp_is_hostheader st then
    {| temp_header_complete := temp_header_complete st;
       temp_is_hostheader := false;
       temp_host := poke (memcpy (temp_host st) (skipn a data) (clamp n)) (clamp n) NUL |}
  else st.
Proof. reflexivity. Qed.

Lemma callback_complete data st :
  callback data st on_headers_complete =
  {| temp_header_complete := true;
     temp_is_hostheader := temp_is_hostheader st;
     temp_host := temp_host st |}.
Proof. reflexivity. Qed.

Ltac callback_cases e :=
  destruct e as [?a ?n|?a ?n|?a ?n|];
  rewrite ?callback_url, ?callback_field, ?callback_value, ?callback_complete.

Lemma run_cons data e events st :
  run data (e :: events) st = run data events (callback data st e).
Proof. reflexivity. Qed.

Lemma run_header_complete data events : forall st,
  temp_header_complete (run data events st) =
  temp_header_complete st || existsb is_complete events.
Proof.
  induction events as [|e events IH]; intros st.
  - cbn. now rewrite orb_false_r.
  - rewrite run_cons, IH. cbn [existsb]. callback_cases e; cbn [is_complete];
      try reflexivity.
    + destruct (temp_is_hostheader st); reflexivity.
    + cbn. now rewrite orb_true_r.
Qed.

Lemma existsb_complete_In events :
  existsb is_complete events = true <-> In on_headers_complete events.
Proof.
  rewrite existsb_exists. split.
  - intros (e & Hin & He). destruct e; try discriminate. exact Hin.
  - intros H. exists on_headers_complete. split; [exact H|reflexivity].
Qed.

(** Every write stays inside the 1024 bytes of [temp_host]. *)
Lemma run_length data events : forall st,
  List.length (temp_host st) = 1024%nat ->
  List.length (temp_host (run data events st)) = 1024%nat.
Proof.
  induction events as [|e events IH]; intros st H; [exact H|].
  rewrite run_cons. apply IH. callback_cases e; try exact H.
  destruct (temp_is_hostheader st); [|exact H]. cbn [temp_host].
  rewrite length_captured; [exact H|].
  rewrite H. unfold clamp. destruct (Nat.leb_spec 1024 n); lia.
Qed.

Lemma callback_same_view data e s1 s2 :
  same_view s1 s2 -> same_view (callback data s1 e) (callback data s2 e).
Proof.
  intros (H1 & H2 & H3). unfold same_view. callback_cases e.
  - repeat split; assumption.
  - repeat split; assumption.
  - rewrite <- H2. destruct (temp_is_hostheader s1) eqn:E.
    + repeat split; cbn [temp_header_complete temp_host]; [assumption|].
      now rewrite !c_str_captured.
    + repeat split; congruence.
  - repeat split; assumption.
Qed.

Lemma run_same_view data events : forall s1 s2,
  same_view s1 s2 -> same_view (run data events s1) (run data events s2).
Proof.
  induction events as [|e events IH]; intros s1 s2 H; [exact H|].
  rewrite !run_cons. apply IH, callback_same_view, H.
Qed.

Lemma reset_same_view s1 s2 : same_view (reset_classifier s1) (reset_classifier s2).
Proof.
  unfold same_view, reset_classifier. cbn [temp_header_complete temp_is_hostheader temp_host].
  rewrite !c_str_poke_0. repeat split.
Qed.

(** Events that never set the flag leave the captured string alone. *)
Lemma run_no_host_field data events : forall st,
  existsb (sets_hostheader data) events = false ->
  temp_is_hostheader st = false ->
  temp_is_hostheader (run data events st) = false /\
  temp_host (run data events st) = temp_host st.
Proof.
  induction events as [|e events IH]; intros st He Hf; [auto|].
  cbn [existsb] in He. apply orb_false_elim in He as [He1 He2].
  rewrite run_cons. callback_cases e.
  - apply IH; assumption.
  - rewrite He1.
    destruct (IH {| temp_header_complete := temp_header_complete st;
                    temp_is_hostheader := false;
                    temp_host := temp_host st |} He2 eq_refl) as [A B].
    split; [exact A|exact B].
  - rewrite Hf. apply IH; assumption.
  - destruct (IH {| temp_header_complete := true;
                    temp_is_hostheader := temp_is_hostheader st;
                    temp_host := temp_host st |} He2 Hf) as [A B].
    split; [exact A|exact B].
Qed.

Lemma run_app data ev1 ev2 st :
  run data (ev1 ++ ev2) st = run data ev2 (run data ev1 st).
Proof. unfold run. apply fold_left_app. Qed.

(** After a field event that sets the flag and its value event, with no
    later field event setting the flag, [temp_host] holds the value, cut to
    1023 bytes. *)
Lemma run_last_host_header data pre a n a' n' post st :
  sets_hostheader data (on_header_field a n) = true ->
  existsb (sets_hostheader data) post = false ->
  c_str (temp_host (run data (pre ++ on_header_field a n :: on_header_value a' n' :: post) st))
  = c_str (firstn 1023 (value_bytes data a' n')).
Proof.
  intros Hf Hpost. rewrite run_app.
  set (st1 := run data pre st).
  change (on_header_field a n :: on_header_value a' n' :: post)
    with ([on_header_field a n; on_header_value a' n'] ++ post).
  rewrite run_app.
  set (st2 := run data [on_header_field a n; on_header_value a' n'] st1).
  assert (H2 : temp_is_hostheader st2 = false /\
               c_str (temp_host st2) = c_str (firstn 1023 (value_bytes data a' n'))).
  { unfold st2. rewrite !run_cons, callback_field, Hf, callback_value.
    unfold run. cbn [fold_left temp_is_hostheader temp_host].
    split; [reflexivity|].
    rewrite c_str_captured. unfold value_bytes. f_equal. apply read_clamp. }
  destruct H2 as [Hflag Hstr].
  destruct (run_no_host_field data post st2 Hpost Hflag) as [_ Hsame].
  now rewrite Hsame.
Qed.

Lemma names_host_sets_hostheader data a n :
  names_host data a n = true -> sets_hostheader data (on_header_field a n) = true.
Proof.
  unfold names_host, sets_hostheader. intros H.
  apply andb_prop in H as [Hn He]. apply Nat.eqb_eq in Hn. subst n.
  unfold list_ascii_eqb in He. apply String.eqb_eq in He.
  apply (f_equal list_ascii_of_string) in He.
  rewrite !list_ascii_of_string_of_list_ascii in He.
  simpl in He. injection He as E1 E2 E3 E4.
  simpl. fold (peek (skipn a data)). rewrite E1. 
  change (tolower (peek (str "host"))) with "h"%char. simpl.
  fold (peek (tl (skipn a data))). rewrite E2. simpl.
  fold (peek (tl (tl (skipn a data)))). rewrite E3. simpl.
  fold (peek (tl (tl (tl (skipn a data))))). rewrite E4. reflexivity.
Qed.

Section Classified.

Variable http_parser_execute : list ascii -> list http_event * nat.

Local Abbreviation Match := (HttpRequestPayloadMatch http_parser_execute).
Local Abbreviation parse := (parse_payload http_parser_execute).

Lemma parse_payload_run st data len :
  fst (parse st data len) =
  run data (fst (http_parser_execute (firstn len data))) (reset_classifier st).
Proof.
  unfold parse_payload. destruct (http_parser_execute (firstn len data)). reflexivity.
Qed.

Lemma Match_fst cfg st data len :
  fst (Match cfg st data len) =
  temp_header_complete (fst (parse st data len)) &&
  (_stricmp (target_url cfg) (temp_host (fst (parse st data len))) =? 0).
Proof.
  unfold HttpRequestPayloadMatch.
  destruct (parse st data len) as [st' nparsed]. cbn [fst].
  destruct (temp_header_complete st'); [|reflexivity].
  destruct (_ =? 0); reflexivity.
Qed.

Lemma Match_snd cfg st data len :
  snd (Match cfg st data len) = fst (parse st data len).
Proof.
  unfold HttpRequestPayloadMatch.
  destruct (parse st data len) as [st' nparsed]. cbn [fst].
  destruct (temp_header_complete st'); [|reflexivity].
  destruct (_ =? 0); reflexivity.
Qed.

Lemma parse_header_complete st data len :
  temp_header_complete (fst (parse st data len)) = true <->
  In on_headers_complete (fst (http_parser_execute (firstn len data))).
Proof.
  rewrite parse_payload_run, run_header_complete. cbn [reset_classifier temp_header_complete orb].
  apply existsb_complete_In.
Qed.

Lemma Match_true_iff cfg st data len :
  fst (Match cfg st data len) = true <->
  In on_headers_complete (fst (http_parser_execute (firstn len data))) /\
  _stricmp (target_url cfg) (temp_host (fst (parse st data len))) = 0.
Proof.
  rewrite Match_fst, andb_true_iff, parse_header_complete, Z.eqb_eq. reflexivity.
Qed.

Lemma Match_false_iff cfg st data len :
  fst (Match cfg st data len) = false <->
  ~ (In on_headers_complete (fst (http_parser_execute (firstn len data))) /\
     _stricmp (target_url cfg) (temp_host (fst (parse st data len))) = 0).
Proof. rewrite <- Match_true_iff. destruct (fst (Match cfg st data len)); split; congruence. Qed.

Lemma parse_last_host_header st data len v :
  has_last_host_header data (fst (http_parser_execute (firstn len data))) v ->
  c_str (temp_host (fst (parse st data len))) = c_str (firstn 1023 v).
Proof.
  intros (pre & a & n & a' & n' & post & He & Hn & Hv & Hpost).
  rewrite parse_payload_run, He, Hv.
  apply run_last_host_header; [|exact Hpost].
  apply names_host_sets_hostheader, Hn.
Qed.

Lemma parse_no_host_field st data len :
  existsb (sets_hostheader data) (fst (http_parser_execute (firstn len data))) = false ->
  c_str (temp_host (fst (parse st data len))) = [].
Proof.
  intros H. rewrite parse_payload_run.
  destruct (run_no_host_field data _ (reset_classifier st) H eq_refl) as [_ Hs].
  rewrite Hs. cbn [reset_classifier temp_host]. apply c_str_poke_0.
Qed.

(** With an empty target, a completed header block without any field
    name that begins with [host] is a match. *)
Lemma empty_target_matches cfg st data len :
  strlen (target_url cfg) = 0%nat ->
  In on_headers_complete (fst (http_parser_execute (firstn len data))) ->
  existsb (sets_hostheader data) (fst (http_parser_execute (firstn len data))) = false ->
  fst (Match cfg st data len) = true.
Proof.
  intros Ht Hc Hn. apply Match_true_iff. split; [exact Hc|].
  rewrite <- _stricmp_c_str, (parse_no_host_field _ _ _ Hn).
  apply _stricmp_nil_r, Ht.
Qed.

(** C3, amended. [HttpRequestPayloadMatch] returns true exactly when the
    parser's headers-complete callback fired and the string captured in
    [temp_host] equals the target case-insensitively. In particular it
    returns true for every payload whose header block completes and in
    which a header named [Host], in any letter case, has a value of fewer
    than 1024 bytes that equals the target case-insensitively, when no
    later header name begins with [host]. *)
Theorem C3_match_iff_complete_and_host_equal :
  forall cfg st data len,
    let events := fst (http_parser_execute (firstn len data)) in
    let captured := temp_host (fst (parse_payload http_parser_execute st data len)) in
    (fst (HttpRequestPayloadMatch http_parser_execute cfg st data len) = true <->
     In on_headers_complete events /\ _stricmp (target_url cfg) captured = 0) /\
    (forall v,
       In on_headers_complete events ->
       has_last_host_header data events v ->
       (List.length v < 1024)%nat ->
       _stricmp (target_url cfg) v = 0 ->
       fst (HttpRequestPayloadMatch http_parser_execute cfg st data len) = true).
Proof.
  intros cfg st data len events captured. split; [apply Match_true_iff|].
  intros v Hc Hh Hl Hv. apply Match_true_iff. split; [exact Hc|].
  rewrite <- _stricmp_c_str, (parse_last_host_header _ _ _ _ Hh).
  rewrite firstn_all2 by lia. rewrite _stricmp_c_str. exact Hv.
Qed.

(** C4, amended. [HttpRequestPayloadMatch] returns false for every payload
    in which the last header named [Host], with no later header name
    beginning with [host], has a value whose first 1023 bytes differ from
    the target case-insensitively; and, when the target is not the empty
    string, for every payload in which no header name begins with
    [host]. *)
Theorem C4_no_match_on_other_or_absent_host :
  forall cfg st data len,
    let events := fst (http_parser_execute (firstn len data)) in
    (exists v, has_last_host_header data events v /\
               _stricmp (target_url cfg) (firstn 1023 v) <> 0) \/
    (existsb (sets_hostheader data) events = false /\
     strlen (target_url cfg) <> 0%nat) ->
    fst (HttpRequestPayloadMatch http_parser_execute cfg st data len) = false.
Proof.
  intros cfg st data len events H. apply Match_false_iff. intros [_ Hs].
  rewrite <- _stricmp_c_str in Hs.
  destruct H as [(v & Hh & Hv) | [Hn Ht]].
  - rewrite (parse_last_host_header _ _ _ _ Hh), _stricmp_c_str in Hs. contradiction.
  - rewrite (parse_no_host_field _ _ _ Hn) in Hs.
    apply _stricmp_nil_r in Hs. contradiction.
Qed.

(** C5. On every payload of which the parser consumes fewer bytes than it
    was given and for which the headers-complete callback never fires,
    [HttpRequestPayloadMatch] returns false; it returns on every input, and
    the writes to [temp_host] stay inside its 1024 bytes. *)
Theorem C5_truncated_payload_no_match :
  forall cfg st data len,
    (snd (http_parser_execute (firstn len data)) < len)%nat ->
    ~ In on_headers_complete (fst (http_parser_execute (firstn len data))) ->
    fst (HttpRequestPayloadMatch http_parser_execute cfg st data len) = false /\
    (List.length (temp_host st) = 1024%nat ->
     List.length (temp_host (snd (HttpRequestPayloadMatch http_parser_execute cfg st data len))) = 1024%nat).
Proof.
  intros cfg st data len _ Hc. split.
  - apply Match_false_iff. intros [H _]. contradiction.
  - intros Hl. rewrite Match_snd, parse_payload_run. apply run_length.
    cbn [reset_classifier temp_host]. now rewrite length_poke.
Qed.

(** C6. Each call starts by clearing the two flags and emptying the
    captured string: the state a call leaves is the parser's callbacks
    applied, in order, to the state so reset, whatever was there before.
    Hence neither its result nor the flags and the captured string it
    leaves depend on the state it starts from: the second of any two
    calls returns, and leaves in the two flags and in the string of
    [temp_host], what a call on the same payload and target does from the
    initial state. *)
Theorem C6_no_state_carried_over :
  forall cfg st0 data1 len1 data2 len2,
    let st1 := snd (HttpRequestPayloadMatch http_parser_execute cfg st0 data1 len1) in
    (temp_header_complete (reset_classifier st1) = false /\
     temp_is_hostheader (reset_classifier st1) = false /\
     c_str (temp_host (reset_classifier st1)) = []) /\
    fst (HttpRequestPayloadMatch http_parser_execute cfg st1 data2 len2) = fst (HttpRequestPayloadMatch http_parser_execute cfg initial_classifier data2 len2) /\
    fst (HttpRequestPayloadMatch http_parser_execute cfg st0 data2 len2) = fst (HttpRequestPayloadMatch http_parser_execute cfg initial_classifier data2 len2) /\
    snd (HttpRequestPayloadMatch http_parser_execute cfg st1 data2 len2) =
      fold_left (callback data2) (fst (http_parser_execute (firstn len2 data2)))
        (reset_classifier st1) /\
    same_view (snd (HttpRequestPayloadMatch http_parser_execute cfg st1 data2 len2))
              (snd (HttpRequestPayloadMatch http_parser_execute cfg initial_classifier data2 len2)) /\
    same_view (snd (HttpRequestPayloadMatch http_parser_execute cfg st0 data2 len2))
              (snd (HttpRequestPayloadMatch http_parser_execute cfg initial_classifier data2 len2)).
Proof.
  intros cfg st0 data1 len1 data2 len2 st1.
  assert (Hany : forall st, fst (Match cfg st data2 len2) =
                            fst (Match cfg initial_classifier data2 len2)).
  { intros st. rewrite !Match_fst, !parse_payload_run.
    destruct (run_same_view data2 (fst (http_parser_execute (firstn len2 data2)))
                _ _ (reset_same_view st initial_classifier)) as (H1 & _ & H3).
    rewrite H1. f_equal.
    rewrite <- (_stricmp_c_str _ (temp_host (run _ _ (reset_classifier st)))), H3.
    now rewrite _stricmp_c_str. }
  assert (Hview : forall st, same_view (snd (Match cfg st data2 len2))
                               (snd (Match cfg initial_classifier data2 len2))).
  { intros st. rewrite !Match_snd, !parse_payload_run.
    apply run_same_view, reset_same_view. }
  split; [|split; [apply Hany|split; [apply Hany|split; [|split; apply Hview]]]].
  - cbn [reset_classifier temp_header_complete temp_is_hostheader temp_host].
    repeat split. apply c_str_poke_0.
  - rewrite Match_snd, parse_payload_run. reflexivity.
Qed.

End Classified.

(** ** The response text *)

Lemma strlen_app_no_NUL a b :
  Forall (fun c => c <> NUL) a -> strlen (a ++ b) = (List.length a + strlen b)%nat.
Proof.
  induction 1 as [|c a Hc _ IH]; simpl; [reflexivity|].
  destruct (Ascii.eqb_spec c NUL) as [->|_]; [contradiction|]. now rewrite IH.
Qed.

Lemma c_str_no_NUL s : Forall (fun c => c <> NUL) s -> c_str s = s.
Proof.
  intros H. unfold c_str.
  rewrite <- (app_nil_r s) at 1. rewrite strlen_app_no_NUL by exact H.
  simpl. rewrite Nat.add_0_r. apply firstn_all.
Qed.

Lemma c_str_has_no_NUL s : Forall (fun c => c <> NUL) (c_str s).
Proof.
  unfold c_str. induction s as [|c s IH]; simpl; [constructor|].
  destruct (Ascii.eqb_spec c NUL) as [->|Hc]; simpl; [constructor|].
  constructor; assumption.
Qed.

Lemma Forall_differs (x : ascii) s :
  forallb (fun c => negb (Ascii.eqb c x)) s = true -> Forall (fun c => c <> x) s.
Proof.
  intros H. apply Forall_forall. intros c Hc.
  rewrite forallb_forall in H. specialize (H c Hc).
  intros ->. rewrite Ascii.eqb_refl in H. discriminate.
Qed.

Lemma build_responseData_no_NUL h :
  Forall (fun c => c <> NUL) h ->
  Forall (fun c => c <> NUL) (build_responseData h).
Proof.
  intros H. unfold build_responseData, strcat. rewrite app_nil_l.
  apply Forall_app. split; [apply Forall_app; split; [|exact H]|];
    apply Forall_differs; vm_compute; reflexivity.
Qed.

Lemma split_blank_line_head s :
  split_blank_line (response_head ++ s) = lift_split response_head (split_blank_line s).
Proof.
  unfold response_head. cbn.
  destruct (split_blank_line s) as [[x b]|]; reflexivity.
Qed.

Lemma split_blank_line_no_LF h : forall rest,
  Forall (fun c => c <> LF) h -> peek rest <> LF ->
  split_blank_line (h ++ rest) = lift_split h (split_blank_line rest).
Proof.
  induction h as [|c h IH]; intros rest Hh Hr.
  - simpl. destruct (split_blank_line rest) as [[x b]|]; reflexivity.
  - inversion Hh as [|? ? Hc Hh']; subst.
    change ((c :: h) ++ rest) with (c :: (h ++ rest)).
    cbn [split_blank_line].
    assert (Hp : prefix_eqb (crlf ++ crlf) (c :: h ++ rest) = false).
    { cbn [crlf app prefix_eqb].
      destruct (Ascii.eqb CR c); [|reflexivity]. cbn [andb].
      destruct h as [|x h]; cbn [app].
      - destruct rest as [|y rest]; [reflexivity|]. cbn [prefix_eqb].
        cbn [peek hd] in Hr.
        destruct (Ascii.eqb_spec LF y) as [<-|_]; [contradiction|reflexivity].
      - cbn [prefix_eqb]. inversion Hh' as [|? ? Hx _]; subst.
        destruct (Ascii.eqb_spec LF x) as [<-|_]; [contradiction|reflexivity]. }
    rewrite Hp, (IH rest Hh' Hr).
    destruct (split_blank_line rest) as [[x b]|]; reflexivity.
Qed.

Lemma split_blank_line_response h :
  Forall (fun c => c <> LF) h ->
  split_blank_line (build_responseData h) =
  Some (response_head ++ h ++ response_mid, str "302").
Proof.
  intros H. unfold build_responseData, strcat.
  rewrite app_nil_l, <- app_assoc, split_blank_line_head.
  rewrite split_blank_line_no_LF; [reflexivity|exact H|discriminate].
Qed.

Lemma split_lf_head s :
  split_lf (response_head ++ s) =
  match split_lf s with
  | l :: ls =>
      (str "HTTP/1.1 302 Found" ++ [CR]) ::
      (str "Content-Type: text/html; charset=utf-8" ++ [CR]) ::
      (str "Location: http://" ++ l) :: ls
  | [] =>
      [str "HTTP/1.1 302 Found" ++ [CR];
       str "Content-Type: text/html; charset=utf-8" ++ [CR];
       str "Location: http://"]
  end.
Proof.
  unfold response_head. cbn. destruct (split_lf s); reflexivity.
Qed.

Lemma split_lf_not_nil s : split_lf s <> [].
Proof.
  induction s as [|c s IH]; simpl; [discriminate|].
  destruct (Ascii.eqb c LF); [discriminate|].
  destruct (split_lf s); [contradiction|discriminate].
Qed.

Lemma split_lf_no_LF h : forall rest,
  Forall (fun c => c <> LF) h ->
  split_lf (h ++ rest) =
  match split_lf rest with
  | l :: ls => (h ++ l) :: ls
  | [] => [h]
  end.
Proof.
  induction h as [|c h IH]; intros rest Hh.
  - simpl. pose proof (split_lf_not_nil rest).
    destruct (split_lf rest); [contradiction|reflexivity].
  - inversion Hh as [|? ? Hc Hh']; subst.
    change ((c :: h) ++ rest) with (c :: (h ++ rest)). cbn [split_lf].
    destruct (Ascii.eqb_spec c LF) as [->|_]; [contradiction|].
    rewrite (IH rest Hh'). destruct (split_lf rest); reflexivity.
Qed.

Lemma content_length_response h :
  Forall (fun c => c <> LF) h ->
  content_length (build_responseData h) = Some 3.
Proof.
  intros H. unfold content_length.
  rewrite (split_blank_line_response h H).
  rewrite split_lf_head, (split_lf_no_LF h response_mid H).
  reflexivity.
Qed.

(** C7, amended. For every replacement host on the command line that fits
    its buffer and contains no line feed, the empty string included, the
    response carried by the Redirect template declares a Content-Length of
    3 and its body, the text after the first empty line, is the three
    bytes [302]. *)
Theorem C7_redirect_template_body :
  forall argv cfg f,
    main_startup argv = started cfg f ->
    Forall (fun c => c <> LF) (new_host_url cfg) ->
    content_length (data (blockpage f)) = Some 3 /\
    http_body (data (blockpage f)) = Some (str "302") /\
    List.length (str "302") = 3%nat.
Proof.
  intros argv cfg f Hs Hh.
  pose proof (main_startup_templates _ _ _ Hs) as (Hrd & _ & Hdata & _).
  assert (Hn : Forall (fun c => c <> NUL) (new_host_url cfg)).
  { revert Hs. unfold main_startup.
    destruct argv as [|a0 [|a1 [|a2 [|a3 [|a4 [|? ?]]]]]]; try discriminate.
    destruct (_ || _); [discriminate|].
    intros E. injection E as <- _. apply c_str_has_no_NUL. }
  rewrite Hdata, memcpy_nil, Hrd, c_str_no_NUL by (apply build_responseData_no_NUL, Hn).
  unfold http_body. rewrite content_length_response, split_blank_line_response by exact Hh.
  repeat split.
Qed.

(* ================================================================== *)
(** * Further properties of the loop *)

Lemma fixed_part_fixed_fields p1 p2 :
  fixed_part p1 = fixed_part p2 -> fixed_fields p1 = fixed_fields p2.
Proof.
  destruct p1 as [[] []], p2 as [[] []]. unfold fixed_part, fixed_fields.
  cbn. intros H. injection H as. subst. reflexivity.
Qed.

(** A packet is its fixed part, its connection fields and its checksums. *)
Lemma zero_checksums_ext p1 p2 :
  fixed_part p1 = fixed_part p2 ->
  connection_fields p1 = connection_fields p2 ->
  zero_checksums p1 = zero_checksums p2.
Proof.
  destruct p1 as [[] []], p2 as [[] []].
  unfold fixed_part, connection_fields, zero_checksums. cbn.
  intros H1 H2. injection H1 as. injection H2 as. subst. reflexivity.
Qed.

Lemma sends_nil_warning msg : sends [Warning msg] = [].
Proof. reflexivity. Qed.

Section Cycle.

Variable http_parser_execute : list ascii -> list http_event * nat.
Variable checksums : PACKET -> list ascii -> WINDIVERT_ADDRESS -> Z * Z.
Variable WinDivertSend : frame -> Z -> WINDIVERT_ADDRESS -> bool.

Local Abbreviation CalcSums := (WinDivertHelperCalcChecksums checksums).
Local Abbreviation Hijack := (hijack checksums WinDivertSend).
Local Abbreviation LoopBody := (loop_body http_parser_execute checksums WinDivertSend).
Local Abbreviation MainLoop := (main_loop http_parser_execute checksums WinDivertSend).
Local Abbreviation Match := (HttpRequestPayloadMatch http_parser_execute).

Lemma CalcSums_ext p1 p2 d a :
  zero_checksums p1 = zero_checksums p2 -> CalcSums p1 d a = CalcSums p2 d a.
Proof. unfold WinDivertHelperCalcChecksums. intros ->. reflexivity. Qed.

Lemma CalcSums_fixed_part p d a : fixed_part (CalcSums p d a) = fixed_part p.
Proof.
  unfold WinDivertHelperCalcChecksums.
  destruct (checksums (zero_checksums p) d a). destruct p as [[] []]. reflexivity.
Qed.

Lemma loop_body_unmatched cfg m packet packet_len addr p :
  fst (Match cfg (classifier m) (payload p) (Z.to_nat (UINT16 (payload_len p)))) = false ->
  LoopBody cfg m (recv_packet packet packet_len addr (Some p)) =
  ({| forge := forge m;
      classifier := snd (Match cfg (classifier m) (payload p)
                           (Z.to_nat (UINT16 (payload_len p)))) |},
   reinject WinDivertSend packet packet_len addr).
Proof.
  intros H. unfold loop_body.
  destruct (Match _ _ _ _) as [b c]. cbn [fst snd] in *. subst b. reflexivity.
Qed.

(** X1. A packet that does not parse, or that the classifier does not
    match, is handed back to the transport once, as it came, with its own
    length and address; the templates are not touched. *)
Theorem X1_unmatched_packet_is_reinjected :
  forall cfg m packet packet_len addr parse,
    (forall p, parse = Some p ->
       fst (HttpRequestPayloadMatch http_parser_execute cfg (classifier m)
              (payload p) (Z.to_nat (UINT16 (payload_len p)))) = false) ->
    let r := recv_packet packet packet_len addr parse in
    sends (snd (loop_body http_parser_execute checksums WinDivertSend cfg m r)) =
      [(raw_frame packet, packet_len, addr)] /\
    forge (fst (loop_body http_parser_execute checksums WinDivertSend cfg m r)) =
      forge m.
Proof.
  intros cfg m packet packet_len addr [p|] H r; unfold r.
  - rewrite (loop_body_unmatched _ _ _ _ _ _ (H p eq_refl)). cbn [fst snd forge].
    unfold reinject. rewrite sends_send_or_warn. split; reflexivity.
  - cbn [loop_body fst snd]. unfold reinject.
    rewrite sends_send_or_warn. split; reflexivity.
Qed.

(** X2. A matched packet is not sent on: the iteration hands the transport
    exactly three packets, none of them the original one; the RST is
    40 bytes long and leaves with the address the packet came with, the
    Redirect has the length fixed at start-up and the FIN is 40 bytes long,
    both with the direction reversed. *)
Theorem X2_matched_packet_is_replaced :
  forall cfg m packet packet_len addr p,
    fst (HttpRequestPayloadMatch http_parser_execute cfg (classifier m)
           (payload p) (Z.to_nat (UINT16 (payload_len p)))) = true ->
    let out := snd (loop_body http_parser_execute checksums WinDivertSend cfg m
                      (recv_packet packet packet_len addr (Some p))) in
    (exists rst red fin,
       sends out =
         [(packet_frame rst, 40, addr);
          (data_frame red, blockpage_len (forge m), reverse_direction addr);
          (packet_frame fin, 40, reverse_direction addr)]) /\
    filter is_raw_send (sends out) = [] /\
    Direction (reverse_direction addr) <> Direction addr.
Proof.
  intros cfg m packet packet_len addr p Hm out. unfold out.
  rewrite (loop_body_matched _ _ _ _ _ _ _ _ _ Hm). cbn [snd].
  rewrite hijack_sends. split; [do 3 eexists; reflexivity|].
  split; [reflexivity|].
  unfold reverse_direction. cbn [Direction].
  destruct (Z.eqb_spec (Direction addr) 0); lia.
Qed.

End Cycle.

Lemma warnings_app out1 out2 : warnings (out1 ++ out2) = warnings out1 ++ warnings out2.
Proof.
  induction out1 as [|e out1 IH]; [reflexivity|].
  destruct e; cbn [app warnings]; now rewrite IH.
Qed.

Lemma failed_sends_app send out1 out2 :
  failed_sends send (out1 ++ out2) = failed_sends send out1 ++ failed_sends send out2.
Proof. unfold failed_sends. now rewrite sends_app, filter_app. Qed.

Lemma same_templates_refl f : same_templates f f.
Proof. repeat split. Qed.

Lemma same_templates_trans f1 f2 f3 :
  same_templates f1 f2 -> same_templates f2 f3 -> same_templates f1 f3.
Proof.
  intros (A1 & A2 & A3 & A4 & A5 & A6 & A7) (B1 & B2 & B3 & B4 & B5 & B6 & B7).
  repeat split; congruence.
Qed.

Section Run.

Variable http_parser_execute : list ascii -> list http_event * nat.
Variable checksums : PACKET -> list ascii -> WINDIVERT_ADDRESS -> Z * Z.

Local Abbreviation CalcSums := (WinDivertHelperCalcChecksums checksums).
Local Abbreviation Match := (HttpRequestPayloadMatch http_parser_execute).

(** The answer of the classifier is the same from every state. *)
Lemma Match_any_state cfg st st' data len :
  fst (Match cfg st data len) = fst (Match cfg st' data len).
Proof.
  rewrite !Match_fst, !parse_payload_run.
  destruct (run_same_view data (fst (http_parser_execute (firstn len data)))
              _ _ (reset_same_view st st')) as (H1 & _ & H3).
  rewrite H1. f_equal.
  rewrite <- (_stricmp_c_str _ (temp_host (run _ _ (reset_classifier st)))), H3.
  now rewrite _stricmp_c_str.
Qed.

Section Transport.

Variable WinDivertSend : frame -> Z -> WINDIVERT_ADDRESS -> bool.

Local Abbreviation Hijack := (hijack checksums WinDivertSend).
Local Abbreviation LoopBody := (loop_body http_parser_execute checksums WinDivertSend).
Local Abbreviation MainLoop := (main_loop http_parser_execute checksums WinDivertSend).

Lemma warnings_send_or_warn f len a msg :
  warnings (send_or_warn WinDivertSend f len a msg) =
  if WinDivertSend f len a then [] else [msg].
Proof. unfold send_or_warn. destruct (WinDivertSend f len a); reflexivity. Qed.

Lemma failed_sends_send_or_warn f len a msg :
  failed_sends WinDivertSend (send_or_warn WinDivertSend f len a msg) =
  if WinDivertSend f len a then [] else [(f, len, a)].
Proof.
  unfold failed_sends. rewrite sends_send_or_warn. cbn.
  destruct (WinDivertSend f len a); reflexivity.
Qed.

Lemma send_or_warn_balance f len a msg :
  List.length (warnings (send_or_warn WinDivertSend f len a msg)) =
  List.length (failed_sends WinDivertSend (send_or_warn WinDivertSend f len a msg)).
Proof.
  rewrite warnings_send_or_warn, failed_sends_send_or_warn.
  destruct (WinDivertSend f len a); reflexivity.
Qed.

Lemma hijack_balance cfg f a p :
  List.length (warnings (snd (Hijack cfg f a p))) =
  List.length (failed_sends WinDivertSend (snd (Hijack cfg f a p))).
Proof.
  unfold hijack. cbn [snd].
  rewrite !warnings_app, !failed_sends_app, !length_app, !send_or_warn_balance.
  reflexivity.
Qed.

Lemma loop_body_balance cfg m packet packet_len addr parse :
  let out := snd (LoopBody cfg m (recv_packet packet packet_len addr parse)) in
  List.length (warnings out) = List.length (failed_sends WinDivertSend out).
Proof.
  destruct parse as [p|]; cbn zeta.
  - destruct (fst (Match cfg (classifier m) (payload p)
                     (Z.to_nat (UINT16 (payload_len p))))) eqn:E.
    + rewrite (loop_body_matched _ _ _ _ _ _ _ _ _ E). apply hijack_balance.
    + rewrite (loop_body_unmatched _ _ _ _ _ _ _ _ _ E). apply send_or_warn_balance.
  - apply send_or_warn_balance.
Qed.

(** X4. Over a whole run the error stream gets one line for each failed
    receive and one for each send the transport refuses, and no other:
    no failure goes unreported and no warning is spurious. *)
Theorem X4_one_warning_per_failure :
  forall cfg m rs,
    let out := snd (main_loop http_parser_execute checksums WinDivertSend cfg m rs) in
    List.length (warnings out) =
    (List.length (filter (fun r => match r with recv_failed => true | _ => false end) rs)
     + List.length (failed_sends WinDivertSend out))%nat.
Proof.
  intros cfg m rs. revert m. induction rs as [|r rs IH]; intros m; [reflexivity|].
  cbn [main_loop].
  destruct (LoopBody cfg m r) as [m1 out1] eqn:E1.
  specialize (IH m1). cbn zeta in IH.
  destruct (MainLoop cfg m1 rs) as [m2 out2]. cbn [snd] in *.
  rewrite warnings_app, failed_sends_app, !length_app, IH.
  destruct r as [|packet packet_len addr parse].
  - cbn in E1. injection E1 as <- <-. cbn. lia.
  - pose proof (loop_body_balance cfg m packet packet_len addr parse) as Hb.
    cbn zeta in Hb. rewrite E1 in Hb. cbn [snd] in Hb. cbn [filter]. lia.
Qed.

Lemma hijack_fixed_parts cfg f a p :
  same_templates f (fst (Hijack cfg f a p)).
Proof.
  unfold same_templates, hijack.
  cbn [fst responseData blockpage_len blockpage reset finish on_header header data].
  rewrite !CalcSums_fixed_part.
  repeat split.
  pose proof (CalcChecksums_connection_fields checksums) as Hc.
  match goal with
  | |- _ = tcp_SrcPort (tcp (WinDivertHelperCalcChecksums _ ?q ?d ?x)) =>
      specialize (Hc q d x); unfold connection_fields in Hc; injection Hc as _ _ Hc _ _ _
  end.
  rewrite Hc. reflexivity.
Qed.

Lemma hijack_same cfg f1 f2 a p :
  same_templates f1 f2 -> fst (Hijack cfg f1 a p) = fst (Hijack cfg f2 a p).
Proof.
  intros (A1 & A2 & A3 & A4 & A5 & A6 & A7).
  unfold hijack. cbn [fst]. rewrite A1, A2.
  assert (Hr : forall x1 x2 x3 x4 x5 x6 x1' x2' x3' x4' x5' x6' q1 q2 d a0,
             fixed_part q1 = fixed_part q2 ->
             (x1, x2, x3, x4, x5, x6) = (x1', x2', x3', x4', x5', x6') ->
             CalcSums
               (on_tcp (set_tcp_AckNum x6) (on_tcp (set_tcp_SeqNum x5)
                 (on_tcp (set_tcp_DstPort x4) (on_tcp (set_tcp_SrcPort x3)
                   (on_ip (set_ip_DstAddr x2) (on_ip (set_ip_SrcAddr x1) q1)))))) d a0 =
             CalcSums
               (on_tcp (set_tcp_AckNum x6') (on_tcp (set_tcp_SeqNum x5')
                 (on_tcp (set_tcp_DstPort x4') (on_tcp (set_tcp_SrcPort x3')
                   (on_ip (set_ip_DstAddr x2') (on_ip (set_ip_SrcAddr x1') q2)))))) d a0).
  { intros. apply CalcSums_ext, zero_checksums_ext.
    - destruct q1 as [[] []], q2 as [[] []]. unfold fixed_part in *. cbn in *. assumption.
    - unfold connection_fields. cbn. assumption. }
  f_equal.
  - unfold on_header. cbn [header data]. rewrite A3. f_equal.
    apply CalcSums_ext, zero_checksums_ext.
    + destruct (header (blockpage f1)) as [[] []], (header (blockpage f2)) as [[] []].
      unfold fixed_part in *. cbn in *. assumption.
    + unfold connection_fields. cbn. now rewrite A4.
  - apply Hr; [exact A5|reflexivity].
  - apply Hr; [exact A7|reflexivity].
Qed.

(** One iteration: what is sent depends on the received item only, and the
    templates stay the same up to what a hijack overwrites. *)
Lemma loop_body_same cfg m1 m2 r :
  same_templates (forge m1) (forge m2) ->
  sends (snd (LoopBody cfg m1 r)) = sends (snd (LoopBody cfg m2 r)) /\
  same_templates (forge m1) (forge (fst (LoopBody cfg m1 r))).
Proof.
  intros H. destruct r as [|packet packet_len addr [p|]].
  - split; [reflexivity|apply same_templates_refl].
  - destruct (fst (Match cfg (classifier m1) (payload p)
                     (Z.to_nat (UINT16 (payload_len p))))) eqn:E1.
    + assert (E2 := E1). rewrite (Match_any_state cfg _ (classifier m2)) in E2.
      rewrite (loop_body_matched _ _ _ _ _ _ _ _ _ E1),
              (loop_body_matched _ _ _ _ _ _ _ _ _ E2).
      cbn [fst snd forge]. split; [|apply hijack_fixed_parts].
      rewrite !hijack_sends.
      rewrite (hijack_same cfg (forge m1) (forge m2) addr p H).
      destruct H as (_ & -> & _). reflexivity.
    + assert (E2 := E1). rewrite (Match_any_state cfg _ (classifier m2)) in E2.
      rewrite (loop_body_unmatched _ _ _ _ _ _ _ _ _ E1),
              (loop_body_unmatched _ _ _ _ _ _ _ _ _ E2).
      cbn [fst snd forge]. unfold reinject. rewrite !sends_send_or_warn.
      split; [reflexivity|apply same_templates_refl].
  - cbn [loop_body fst snd]. unfold reinject. rewrite !sends_send_or_warn.
    split; [reflexivity|apply same_templates_refl].
Qed.

Lemma main_loop_per_packet cfg m0 rs : forall m,
  same_templates (forge m0) (forge m) ->
  sends (snd (MainLoop cfg m rs)) =
  flat_map (fun r => sends (snd (LoopBody cfg m0 r))) rs /\
  same_templates (forge m0) (forge (fst (MainLoop cfg m rs))).
Proof.
  induction rs as [|r rs IH]; intros m H; [split; [reflexivity|exact H]|].
  cbn [main_loop flat_map].
  destruct (loop_body_same cfg m0 m r H) as [Hs _].
  assert (H' : same_templates (forge m) (forge m)) by apply same_templates_refl.
  destruct (loop_body_same cfg m m r H') as [_ Hm].
  destruct (LoopBody cfg m r) as [m1 out1]. cbn [fst snd] in *.
  destruct (IH m1 (same_templates_trans _ _ _ H Hm)) as [IH1 IH2].
  destruct (MainLoop cfg m1 rs) as [m2 out2]. cbn [fst snd] in *.
  rewrite sends_app, IH1, Hs. split; [reflexivity|exact IH2].
Qed.

(** X6. No state is carried from one iteration to the next: the packets a
    run sends are, in order, those each received item would cause on its
    own from the state the run started in. Nothing stamped for an earlier
    connection, and nothing the classifier captured earlier, shows in a
    later packet. *)
Theorem X6_run_sends_are_per_packet :
  forall cfg m rs,
    sends (snd (main_loop http_parser_execute checksums WinDivertSend cfg m rs)) =
    flat_map
      (fun r => sends (snd (loop_body http_parser_execute checksums WinDivertSend
                              cfg m r))) rs.
Proof.
  intros cfg m rs.
  apply (main_loop_per_packet cfg m rs m), same_templates_refl.
Qed.

Lemma loop_body_passed_on cfg m r :
  filter is_raw_send (sends (snd (LoopBody cfg m r))) =
  passed_on http_parser_execute cfg r.
Proof.
  destruct r as [|packet packet_len addr [p|]]; cbn [passed_on].
  - reflexivity.
  - rewrite (Match_any_state cfg initial_classifier (classifier m)).
    destruct (fst (Match cfg (classifier m) (payload p)
                     (Z.to_nat (UINT16 (payload_len p))))) eqn:E.
    + rewrite (loop_body_matched _ _ _ _ _ _ _ _ _ E). cbn [snd].
      rewrite hijack_sends. reflexivity.
    + rewrite (loop_body_unmatched _ _ _ _ _ _ _ _ _ E). cbn [snd].
      unfold reinject. rewrite sends_send_or_warn. reflexivity.
  - cbn [loop_body snd]. unfold reinject. rewrite sends_send_or_warn. reflexivity.
Qed.

(** X7. Over a whole run the original packets handed back to the transport
    are exactly the received packets that do not parse or that the
    classifier does not match, each once, unchanged and in the order of
    arrival; whether a packet is matched does not depend on the packets
    before it. *)
Theorem X7_unmatched_packets_pass_in_order :
  forall cfg m rs,
    filter is_raw_send
      (sends (snd (main_loop http_parser_execute checksums WinDivertSend cfg m rs))) =
    flat_map (passed_on http_parser_execute cfg) rs.
Proof.
  intros cfg m rs.
  destruct (main_loop_per_packet cfg m rs m (same_templates_refl _)) as [-> _].
  induction rs as [|r rs IH]; [reflexivity|].
  cbn [flat_map]. rewrite filter_app, IH, loop_body_passed_on. reflexivity.
Qed.

End Transport.

(** X3. Whether a send succeeds changes nothing but the warnings: under any
    two transports a run attempts the same sends in the same order and
    ends in the same state, so a refused packet never holds back the
    packets after it. *)
Theorem X3_send_outcomes_do_not_steer_the_run :
  forall send1 send2 cfg m rs,
    fst (main_loop http_parser_execute checksums send1 cfg m rs) =
    fst (main_loop http_parser_execute checksums send2 cfg m rs) /\
    sends (snd (main_loop http_parser_execute checksums send1 cfg m rs)) =
    sends (snd (main_loop http_parser_execute checksums send2 cfg m rs)).
Proof.
  intros send1 send2 cfg m rs. revert m.
  assert (Hb : forall m r,
            fst (loop_body http_parser_execute checksums send1 cfg m r) =
            fst (loop_body http_parser_execute checksums send2 cfg m r) /\
            sends (snd (loop_body http_parser_execute checksums send1 cfg m r)) =
            sends (snd (loop_body http_parser_execute checksums send2 cfg m r))).
  { intros m r. destruct r as [|packet packet_len addr [p|]].
    - split; reflexivity.
    - destruct (fst (Match cfg (classifier m) (payload p)
                       (Z.to_nat (UINT16 (payload_len p))))) eqn:E.
      + rewrite (loop_body_matched _ _ send1 _ _ _ _ _ _ E),
                (loop_body_matched _ _ send2 _ _ _ _ _ _ E).
        cbn [fst snd]. rewrite !hijack_sends. split; reflexivity.
      + rewrite (loop_body_unmatched _ _ send1 _ _ _ _ _ _ E),
                (loop_body_unmatched _ _ send2 _ _ _ _ _ _ E).
        cbn [fst snd]. unfold reinject. rewrite !sends_send_or_warn.
        split; reflexivity.
    - cbn [loop_body fst snd]. unfold reinject. rewrite !sends_send_or_warn.
      split; reflexivity. }
  induction rs as [|r rs IH]; intros m; [split; reflexivity|].
  cbn [main_loop]. destruct (Hb m r) as [H1 H2].
  destruct (loop_body _ _ send1 cfg m r) as [m1 out1].
  destruct (loop_body _ _ send2 cfg m r) as [m1' out1'].
  cbn [fst snd] in H1, H2. subst m1'.
  destruct (IH m1) as [I1 I2].
  destruct (main_loop _ _ send1 cfg m1 rs) as [m2 out2].
  destruct (main_loop _ _ send2 cfg m1 rs) as [m2' out2'].
  cbn [fst snd] in *. rewrite !sends_app, H2, I2. split; [exact I1|reflexivity].
Qed.

End Run.

(** ** Further properties of the start-up and of the classifier *)

Lemma main_startup_no_NUL argv cfg f :
  main_startup argv = started cfg f ->
  Forall (fun c => c <> NUL) (new_host_url cfg).
Proof.
  unfold main_startup.
  destruct argv as [|a0 [|a1 [|a2 [|a3 [|a4 [|? ?]]]]]]; try discriminate.
  destruct (_ || _); [discriminate|].
  intros E. injection E as <- _. apply c_str_has_no_NUL.
Qed.

Lemma strlen_no_NUL s : Forall (fun c => c <> NUL) s -> strlen s = List.length s.
Proof.
  intros H. rewrite <- (app_nil_r s) at 1.
  rewrite strlen_app_no_NUL by exact H. cbn. lia.
Qed.

Lemma startup_blockpage_len argv cfg f :
  main_startup argv = started cfg f ->
  blockpage_len f = 179 + Z.of_nat (List.length (new_host_url cfg)) /\
  (List.length (new_host_url cfg) < 1024)%nat.
Proof.
  intros Hs.
  pose proof (main_startup_templates _ _ _ Hs) as (Hrd & Hbl & _).
  pose proof (main_startup_bounds _ _ _ Hs) as [_ Hn].
  pose proof (build_responseData_no_NUL _ (main_startup_no_NUL _ _ _ Hs)) as Hz.
  split; [|exact Hn].
  rewrite Hbl, Hrd, strlen_no_NUL, length_build_responseData by exact Hz.
  unfold UINT16, sizeof_DATAPACKET, sizeof_PACKET,
    sizeof_WINDIVERT_IPHDR, sizeof_WINDIVERT_TCPHDR.
  rewrite Z.mod_small by lia. lia.
Qed.

(** X11. When [main] starts, the response text is the fixed head, the
    replacement host and the fixed tail; it is 139 bytes longer than the
    host and fits, with its terminator, the 2048 bytes allocated for it;
    the Redirect template carries exactly that text, and its length, 179
    plus the length of the host, is not cut by the 16-bit
    [blockpage_len]. *)
Theorem X11_response_text_fits :
  forall argv cfg f,
    main_startup argv = started cfg f ->
    responseData f = response_head ++ new_host_url cfg ++ response_tail /\
    strlen (responseData f) = (139 + List.length (new_host_url cfg))%nat /\
    (strlen (responseData f) + 1 <= 2048)%nat /\
    data (blockpage f) = responseData f /\
    blockpage_len f = 179 + Z.of_nat (List.length (new_host_url cfg)).
Proof.
  intros argv cfg f Hs.
  pose proof (main_startup_templates _ _ _ Hs) as (Hrd & Hbl & Hdata & _).
  pose proof (main_startup_bounds _ _ _ Hs) as [_ Hn].
  pose proof (main_startup_no_NUL _ _ _ Hs) as Hz.
  pose proof (build_responseData_no_NUL _ Hz) as Hz'.
  assert (Hlen : strlen (responseData f) = (139 + List.length (new_host_url cfg))%nat).
  { rewrite Hrd, strlen_no_NUL by exact Hz'. apply length_build_responseData. }
  split; [|split; [exact Hlen|split; [lia|split]]].
  - rewrite Hrd. unfold build_responseData, strcat.
    now rewrite app_nil_l, <- app_assoc.
  - rewrite Hdata, memcpy_nil, Hrd. apply c_str_no_NUL, Hz'.
  - rewrite Hbl, Hlen. unfold UINT16, sizeof_DATAPACKET, sizeof_PACKET,
      sizeof_WINDIVERT_IPHDR, sizeof_WINDIVERT_TCPHDR.
    rewrite Z.mod_small by lia. lia.
Qed.

Section Invariants.

Variable http_parser_execute : list ascii -> list http_event * nat.
Variable checksums : PACKET -> list ascii -> WINDIVERT_ADDRESS -> Z * Z.
Variable WinDivertSend : frame -> Z -> WINDIVERT_ADDRESS -> bool.

Local Abbreviation LoopBody := (loop_body http_parser_execute checksums WinDivertSend).
Local Abbreviation MainLoop := (main_loop http_parser_execute checksums WinDivertSend).
Local Abbreviation Match := (HttpRequestPayloadMatch http_parser_execute).

(** X5. At every point of a run the three templates keep the fields that
    [PacketInit] and [main] gave them: IPv4, header lengths of five words,
    TTL 64, protocol TCP, everything else zero; the flags RST+ACK, PSH+ACK
    and FIN+ACK; and a total length of 40 bytes for the RST and the FIN and
    of 179 bytes plus the replacement host for the Redirect. *)
Theorem X5_templates_keep_their_fixed_fields :
  forall argv cfg m,
    reachable http_parser_execute checksums WinDivertSend argv cfg m ->
    fixed_fields (reset (forge m)) =
      ((4, 5, 0, 40, 0, 0, 64, 6), (5, 0, 0, 0, 0), (0, 0, 1, 0, 1, 0)) /\
    fixed_fields (header (blockpage (forge m))) =
      ((4, 5, 0, 179 + Z.of_nat (List.length (new_host_url cfg)), 0, 0, 64, 6),
       (5, 0, 0, 0, 0), (0, 0, 0, 1, 1, 0)) /\
    fixed_fields (finish (forge m)) =
      ((4, 5, 0, 40, 0, 0, 64, 6), (5, 0, 0, 0, 0), (1, 0, 0, 0, 1, 0)).
Proof.
  intros argv cfg m (f0 & rs & Hs & <-).
  destruct (main_loop_per_packet http_parser_execute checksums WinDivertSend
              cfg (initial_machine f0) rs (initial_machine f0)
              (same_templates_refl _)) as [_ (_ & _ & _ & _ & A5 & A6 & A7)].
  rewrite <- (fixed_part_fixed_fields _ _ A5), <- (fixed_part_fixed_fields _ _ A6),
          <- (fixed_part_fixed_fields _ _ A7).
  cbn [initial_machine forge].
  destruct (startup_blockpage_len argv cfg f0 Hs) as [Hbl Hn].
  rewrite (main_startup_forge _ _ _ Hs) in *.
  split; [reflexivity|split; [|reflexivity]].
  unfold fixed_fields. cbn [build_Forge blockpage build_blockpage header ip tcp on_ip on_tcp
    set_ip_Length set_tcp_SrcPort set_tcp_Psh set_tcp_Ack PacketInit
    ip_Version ip_HdrLength ip_TOS ip_Length ip_Id ip_FragOff0 ip_TTL ip_Protocol
    tcp_HdrLength tcp_Reserved1 tcp_Reserved2 tcp_Window tcp_UrgPtr
    tcp_Fin tcp_Syn tcp_Rst tcp_Psh tcp_Ack tcp_Urg].
  cbn [build_Forge blockpage_len] in Hbl.
  rewrite ntohs_htons, Hbl, Z.mod_small by lia. reflexivity.
Qed.

End Invariants.

Lemma strlen_c_str_length s : strlen s = List.length (c_str s).
Proof. symmetry. apply length_c_str. Qed.

Lemma strlen_captured buf src n :
  (strlen (poke (memcpy buf src n) n NUL) <= n)%nat.
Proof.
  rewrite strlen_c_str_length, c_str_captured, length_c_str.
  pose proof (strlen_le_length (read src n)). rewrite length_read in *. lia.
Qed.

(** The terminator of the captured string stays inside [temp_host]. *)
Lemma run_strlen data events : forall st,
  (strlen (temp_host st) <= 1023)%nat ->
  (strlen (temp_host (run data events st)) <= 1023)%nat.
Proof.
  induction events as [|e events IH]; intros st H; [exact H|].
  rewrite run_cons. apply IH. callback_cases e; try exact H.
  destruct (temp_is_hostheader st); [|exact H]. cbn [temp_host].
  pose proof (strlen_captured (temp_host st) (skipn a data) (clamp n)).
  unfold clamp in *. destruct (Nat.leb_spec 1024 n); lia.
Qed.

Lemma code_inj c1 c2 : code c1 = code c2 -> c1 = c2.
Proof.
  unfold code. intros H.
  rewrite <- (ascii_N_embedding c1), <- (ascii_N_embedding c2).
  f_equal. lia.
Qed.

Lemma code_range c : 0 <= code c < 256.
Proof. unfold code. pose proof (N_ascii_bounded c). lia. Qed.

Lemma tolower_idem c : tolower (tolower c) = tolower c.
Proof.
  destruct ((65 <=? code c) && (code c <=? 90)) eqn:E.
  - assert (Ht : tolower c = ascii_of_N (N_of_ascii c + 32))
      by (unfold tolower; now rewrite E).
    apply andb_prop in E as [E1 E2]. apply Z.leb_le in E1, E2.
    assert (Hc : code (ascii_of_N (N_of_ascii c + 32)) = code c + 32).
    { unfold code in *. rewrite N_ascii_embedding by lia. lia. }
    rewrite Ht. unfold tolower. rewrite Hc.
    replace (code c + 32 <=? 90) with false by (symmetry; apply Z.leb_gt; lia).
    rewrite andb_false_r. reflexivity.
  - assert (Ht : tolower c = c) by (unfold tolower; now rewrite E).
    now rewrite !Ht.
Qed.

Lemma _stricmp_tolower_l t : forall s, _stricmp (map tolower t) s = _stricmp t s.
Proof.
  induction t as [|c t IH]; intros s; [reflexivity|].
  cbn [map _stricmp]. rewrite tolower_idem.
  destruct (Ascii.eqb (tolower c) (tolower (peek s))); [|reflexivity].
  destruct (Ascii.eqb (tolower c) NUL); [reflexivity|]. apply IH.
Qed.

(** The first comparison step of [_strnicmp] against a letter. *)
Lemma _strnicmp_step s lit n x :
  tolower x = x -> x <> NUL ->
  (_strnicmp s (x :: lit) (S n) = 0 <->
   tolower (peek s) = x /\ _strnicmp (tl s) lit n = 0).
Proof.
  intros Hx Hnz. cbn [_strnicmp peek hd tl]. rewrite Hx.
  destruct (Ascii.eqb_spec (tolower (peek s)) x) as [E|E].
  - rewrite E. destruct (Ascii.eqb_spec x NUL) as [->|_]; [contradiction|].
    split; [intros H; split; [reflexivity|exact H]|intros [_ H]; exact H].
  - split; [|intros [H _]; contradiction].
    intros H. exfalso. apply E, code_inj. lia.
Qed.

Section Matching.

Variable http_parser_execute : list ascii -> list http_event * nat.

Local Abbreviation Match := (HttpRequestPayloadMatch http_parser_execute).

(** X9. The field callback sets the flag exactly when the four bytes at
    [at] spell [host] in some letter case. The length of the field is not
    looked at, so every field name that begins with these four letters
    counts as the Host header. *)
Theorem X9_field_test_reads_four_bytes :
  forall data a n st,
    temp_is_hostheader (my_header_field_callback data a n st) = true <->
    map tolower (read (skipn a data) 4) = str "host".
Proof.
  intros data a n st. unfold my_header_field_callback.
  set (s := skipn a data).
  assert (H : _strnicmp s (str "host") 4 = 0 <->
              map tolower (read s 4) = str "host").
  { change (str "host") with ["h"; "o"; "s"; "t"]%char.
    rewrite _strnicmp_step by (try reflexivity; discriminate).
    rewrite _strnicmp_step by (try reflexivity; discriminate).
    rewrite _strnicmp_step by (try reflexivity; discriminate).
    rewrite _strnicmp_step by (try reflexivity; discriminate).
    cbn [_strnicmp read map].
    split.
    - intros (-> & -> & -> & -> & _). reflexivity.
    - intros E. injection E as E1 E2 E3 E4. repeat split; assumption. }
  destruct (Z.eqb_spec (_strnicmp s (str "host") 4) 0) as [E|E];
    cbn [temp_is_hostheader].
  - split; [intros _; apply H, E|reflexivity].
  - split; [discriminate|]. intros E'. exfalso. apply E, H, E'.
Qed.

(** X10. When the parse reports a header whose name begins with [host] (in
    any letter case) and no later name does, the classifier returns true
    exactly when the headers-complete callback fired and the target equals,
    case-insensitively, the first 1023 bytes of that header's value. *)
Theorem X10_last_hostlike_header_decides :
  forall cfg st data len v,
    has_last_hostlike_header data (fst (http_parser_execute (firstn len data))) v ->
    (fst (HttpRequestPayloadMatch http_parser_execute cfg st data len) = true <->
     In on_headers_complete (fst (http_parser_execute (firstn len data))) /\
     _stricmp (target_url cfg) (firstn 1023 v) = 0).
Proof.
  intros cfg st data len v (pre & a & n & a' & n' & post & He & Hf & Hv & Hpost).
  rewrite Match_true_iff.
  rewrite <- (_stricmp_c_str (target_url cfg) (temp_host _)).
  rewrite parse_payload_run, He, Hv.
  rewrite (run_last_host_header data pre a n a' n' post _ Hf Hpost).
  rewrite _stricmp_c_str. reflexivity.
Qed.

(** X12. The target is compared without regard to letter case: the
    classifier answers the same for a target and for that target in lower
    case. *)
Theorem X12_target_case_is_ignored :
  forall cfg st data len,
    fst (HttpRequestPayloadMatch http_parser_execute
           (with_target cfg (map tolower (target_url cfg))) st data len) =
    fst (HttpRequestPayloadMatch http_parser_execute cfg st data len).
Proof.
  intros cfg st data len. rewrite !Match_fst.
  cbn [with_target target_url]. now rewrite _stricmp_tolower_l.
Qed.

Lemma Match_keeps_buffer cfg st data len :
  List.length (temp_host st) = 1024%nat ->
  List.length (temp_host (snd (Match cfg st data len))) = 1024%nat /\
  (strlen (temp_host (snd (Match cfg st data len))) <= 1023)%nat.
Proof.
  intros H. rewrite Match_snd, parse_payload_run. split.
  - apply run_length. cbn [reset_classifier temp_host]. now rewrite length_poke.
  - apply run_strlen. cbn [reset_classifier temp_host].
    rewrite strlen_c_str_length, c_str_poke_0. cbn. lia.
Qed.

Section Whole.

Variable checksums : PACKET -> list ascii -> WINDIVERT_ADDRESS -> Z * Z.
Variable WinDivertSend : frame -> Z -> WINDIVERT_ADDRESS -> bool.

Local Abbreviation LoopBody := (loop_body http_parser_execute checksums WinDivertSend).
Local Abbreviation MainLoop := (main_loop http_parser_execute checksums WinDivertSend).

Lemma loop_body_keeps_buffer cfg m r :
  List.length (temp_host (classifier m)) = 1024%nat /\
  (strlen (temp_host (classifier m)) <= 1023)%nat ->
  List.length (temp_host (classifier (fst (LoopBody cfg m r)))) = 1024%nat /\
  (strlen (temp_host (classifier (fst (LoopBody cfg m r)))) <= 1023)%nat.
Proof.
  intros H. destruct r as [|packet packet_len addr [p|]]; try exact H.
  destruct (fst (Match cfg (classifier m) (payload p)
                   (Z.to_nat (UINT16 (payload_len p))))) eqn:E.
  - rewrite (loop_body_matched _ _ _ _ _ _ _ _ _ E). cbn [fst classifier].
    apply Match_keeps_buffer, H.
  - rewrite (loop_body_unmatched _ _ _ _ _ _ _ _ _ E). cbn [fst classifier].
    apply Match_keeps_buffer, H.
Qed.

(** X8. At every point of a run, whatever callbacks the parser made on
    whatever payloads, [temp_host] still has its 1024 bytes and holds a
    terminator among the first 1024: no header value, however long, is
    written past the buffer, and the comparison with the target never
    reads past it. *)
Theorem X8_temp_host_stays_terminated :
  forall argv cfg m,
    reachable http_parser_execute checksums WinDivertSend argv cfg m ->
    List.length (temp_host (classifier m)) = 1024%nat /\
    (strlen (temp_host (classifier m)) < 1024)%nat.
Proof.
  intros argv cfg m (f0 & rs & _ & <-).
  assert (H : forall m0,
            List.length (temp_host (classifier m0)) = 1024%nat /\
            (strlen (temp_host (classifier m0)) <= 1023)%nat ->
            List.length (temp_host (classifier (fst (MainLoop cfg m0 rs)))) = 1024%nat /\
            (strlen (temp_host (classifier (fst (MainLoop cfg m0 rs)))) <= 1023)%nat).
  { induction rs as [|r rs IH]; intros m0 H0; [exact H0|].
    cbn [main_loop].
    pose proof (loop_body_keeps_buffer cfg m0 r H0) as H1.
    destruct (LoopBody cfg m0 r) as [m1 out1]. cbn [fst] in H1.
    specialize (IH m1 H1).
    destruct (MainLoop cfg m1 rs) as [m2 out2]. exact IH. }
  destruct (H (initial_machine f0)) as [A B].
  - split; [reflexivity|]. cbn. lia.
  - split; [exact A|lia].
Qed.

End Whole.

End Matching.

Lemma _strnicmp_four s x1 x2 x3 x4 :
  tolower x1 = x1 -> tolower x2 = x2 -> tolower x3 = x3 -> tolower x4 = x4 ->
  x1 <> NUL -> x2 <> NUL -> x3 <> NUL -> x4 <> NUL ->
  (_strnicmp s [x1; x2; x3; x4] 4 = 0 <-> map tolower (read s 4) = [x1; x2; x3; x4]).
Proof.
  intros L1 L2 L3 L4 N1 N2 N3 N4.
  rewrite !_strnicmp_step by assumption.
  cbn [_strnicmp read map]. split.
  - intros (-> & -> & -> & -> & _). reflexivity.
  - intros E. injection E as E1 E2 E3 E4. repeat split; assumption.
Qed.

(** X13. The loopback flag is set exactly when the fourth argument begins
    with [true] in some letter case; what follows these four letters is
    not looked at, and every other argument leaves the flag clear. *)
Theorem X13_loopback_flag_reads_four_bytes :
  forall a0 a1 a2 a3 a4 cfg f,
    main_startup [a0; a1; a2; a3; a4] = started cfg f ->
    (loopback cfg = true <-> map tolower (read a4 4) = str "true").
Proof.
  intros a0 a1 a2 a3 a4 cfg f Hs.
  assert (Hl : loopback cfg = (_strnicmp a4 (str "true") 4 =? 0)).
  { revert Hs. unfold main_startup. destruct (_ || _); [discriminate|].
    intros E. injection E as <- _. reflexivity. }
  rewrite Hl, Z.eqb_eq.
  apply (_strnicmp_four a4 "t" "r" "u" "e"); try reflexivity; discriminate.
Qed.

(** X15. The byte count [http_parser_execute] returns is never looked at:
    two parsers that make the same callbacks on a payload get the same
    answer and leave the same state, whatever they report as consumed. A
    parse that stops short of the end of the payload after the header
    block has completed can therefore still be a match. *)
Theorem X15_parser_byte_count_is_ignored :
  forall parser1 parser2 cfg st data len,
    fst (parser1 (firstn len data)) = fst (parser2 (firstn len data)) ->
    HttpRequestPayloadMatch parser1 cfg st data len =
    HttpRequestPayloadMatch parser2 cfg st data len.
Proof.
  intros parser1 parser2 cfg st data len H.
  rewrite (surjective_pairing (HttpRequestPayloadMatch parser1 cfg st data len)),
          (surjective_pairing (HttpRequestPayloadMatch parser2 cfg st data len)).
  rewrite !Match_fst, !Match_snd, !parse_payload_run, H. reflexivity.
Qed.

Section Kept.

Variable http_parser_execute : list ascii -> list http_event * nat.
Variable checksums : PACKET -> list ascii -> WINDIVERT_ADDRESS -> Z * Z.
Variable WinDivertSend : frame -> Z -> WINDIVERT_ADDRESS -> bool.

(** X14. The loop never rewrites what [main] put into the Redirect beyond
    the stamped fields: at every point of a run its payload is the response
    text built at start-up, its length is 179 bytes plus the replacement
    host, and its source port is the configured port, as 16 bits. *)
Theorem X14_redirect_payload_is_kept :
  forall argv cfg m,
    reachable http_parser_execute checksums WinDivertSend argv cfg m ->
    data (blockpage (forge m)) =
      response_head ++ new_host_url cfg ++ response_tail /\
    blockpage_len (forge m) = 179 + Z.of_nat (List.length (new_host_url cfg)) /\
    src_port (header (blockpage (forge m))) = port cfg mod 2 ^ 16.
Proof.
  intros argv cfg m Hr.
  pose proof (reachable_templates _ _ _ _ _ _ Hr) as (Hrd & Hbl & Hdata & Hport & _).
  destruct Hr as (f0 & rs & Hs & _).
  pose proof (main_startup_bounds _ _ _ Hs) as [_ Hn].
  pose proof (build_responseData_no_NUL _ (main_startup_no_NUL _ _ _ Hs)) as Hz.
  split; [|split].
  - rewrite Hdata, memcpy_nil, Hrd, c_str_no_NUL by exact Hz.
    unfold build_responseData, strcat. now rewrite app_nil_l, <- app_assoc.
  - rewrite Hbl, Hrd, strlen_no_NUL, length_build_responseData by exact Hz.
    unfold UINT16, sizeof_DATAPACKET, sizeof_PACKET,
      sizeof_WINDIVERT_IPHDR, sizeof_WINDIVERT_TCPHDR.
    rewrite Z.mod_small by lia. lia.
  - unfold src_port. rewrite Hport. apply ntohs_htons.
Qed.

End Kept.

(* ================================================================== *)
(** * The sample run *)

Lemma sample_reachable :
  reachable request_parser internet_checksums send_succeeds
    sample_argv sample_cfg (initial_machine sample_forge).
Proof. exists sample_forge, []. split; reflexivity. Defined.

Lemma sample_passes_filter :
  passes_filter sample_cfg sample_addr (sample_parsed sample_request).
Proof. repeat split. Defined.

Lemma sample_matched :
  fst (HttpRequestPayloadMatch request_parser sample_cfg
         (classifier (initial_machine sample_forge))
         (payload (sample_parsed sample_request))
         (Z.to_nat (UINT16 (payload_len (sample_parsed sample_request))))) = true.
Proof. vm_compute. reflexivity. Defined.

Lemma C1_reset_and_redirect_stamping_witness :
  exists rst red fin a1 a2 a3 n1 n2 n3,
    sends (snd (sample_loop_body sample_cfg (initial_machine sample_forge)
                  (sample_received sample_request))) =
      [(packet_frame rst, n1, a1); (data_frame red, n2, a2);
       (packet_frame fin, n3, a3)] /\
    (src_addr rst = htonl 167772162 /\ dst_addr rst = htonl 3221225991 /\
     src_port rst = 49152 /\ dst_port rst = 80 /\
     seq_num rst = 1000 /\ ack_num rst = 4000) /\
    (src_addr (header red) = htonl 3221225991 /\
     dst_addr (header red) = htonl 167772162 /\
     src_port (header red) = 80 /\ dst_port (header red) = 49152 /\
     seq_num (header red) = 4000 /\ ack_num (header red) = 1050).
Proof.
  exact (C1_reset_and_redirect_stamping request_parser internet_checksums
           send_succeeds sample_argv sample_cfg (initial_machine sample_forge)
           [] 90 sample_addr (sample_parsed sample_request)
           sample_reachable sample_passes_filter sample_matched).
Defined.

Lemma C2_finish_stamping_witness :
  exists fin a n,
    In (packet_frame fin, n, a)
       (sends (snd (sample_loop_body sample_cfg (initial_machine sample_forge)
                      (sample_received sample_request)))) /\
    seq_num fin = 4150 /\ ack_num fin = 1050.
Proof.
  destruct (C2_finish_stamping request_parser internet_checksums
              send_succeeds sample_argv sample_cfg (initial_machine sample_forge)
              [] 90 sample_addr (sample_parsed sample_request)
              sample_reachable sample_passes_filter sample_matched)
    as (rst & red & fin & a1 & a2 & a3 & n1 & n2 & n3 & Hs & _ & _ & _ & _ & _ & _ & _ & Hb & Hex).
  destruct (Hex eq_refl eq_refl eq_refl) as [Hseq Hack].
  exists fin, a3, n3. split.
  - unfold sample_loop_body, sample_received.
    change (40 + Z.of_nat (List.length sample_request)) with 90.
    rewrite Hs. right; right; left; reflexivity.
  - rewrite Hseq, Hack, Hb. split; reflexivity.
Defined.

Lemma C8_checksums_after_stamping_witness :
  exists rst red fin a1 a2 a3 n1 n2 n3,
    sends (snd (sample_loop_body sample_cfg (initial_machine sample_forge)
                  (sample_received sample_request))) =
      [(packet_frame rst, n1, a1); (data_frame red, n2, a2);
       (packet_frame fin, n3, a3)] /\
    checksum_valid internet_checksums rst [] a1 /\
    checksum_valid internet_checksums (header red) (data red) a2 /\
    checksum_valid internet_checksums fin [] a3 /\
    rst = WinDivertHelperCalcChecksums internet_checksums rst [] a1 /\
    header red = WinDivertHelperCalcChecksums internet_checksums (header red) (data red) a2 /\
    fin = WinDivertHelperCalcChecksums internet_checksums fin [] a3.
Proof.
  exact (C8_checksums_after_stamping request_parser internet_checksums
           send_succeeds sample_cfg (initial_machine sample_forge)
           [] 90 sample_addr (sample_parsed sample_request) sample_matched).
Defined.

(** C9, counterexample. With a replacement host of 600 characters the
    Redirect for the sample request is 779 bytes long, more than a path
    MTU of 576 bytes, and it is handed to [WinDivertSend] all the same. *)
Lemma C9_oversize_redirect_is_sent :
  exists cfg f red a,
    main_startup long_host_argv = started cfg f /\
    In (data_frame red, 779, a)
       (sends (snd (sample_loop_body cfg (initial_machine f)
                      (sample_received sample_request)))) /\
    ip_Length (ip (header red)) = htons 779 /\
    576 < 779.
Proof.
  do 4 eexists. split; [vm_compute; reflexivity|].
  split; [vm_compute; right; left; reflexivity|].
  split; reflexivity.
Qed.

Lemma C9_redirect_sent_whatever_its_length_witness :
  exists red a n2,
    In (data_frame red, n2, a)
       (sends (snd (sample_loop_body sample_cfg (initial_machine sample_forge)
                      (sample_received sample_request)))) /\
    n2 = 190 /\ n2 <= 1202.
Proof.
  destruct (C9_redirect_sent_whatever_its_length request_parser internet_checksums
              send_succeeds sample_argv sample_cfg (initial_machine sample_forge)
              [] 90 sample_addr (sample_parsed sample_request)
              sample_reachable sample_matched)
    as (rst & red & fin & a1 & a2 & a3 & n1 & n2 & n3 & Hs & Hn & _ & Hd & Hle).
  exists red, a2, n2. split.
  { unfold sample_loop_body, sample_received.
    change (40 + Z.of_nat (List.length sample_request)) with 90.
    rewrite Hs. right; left; reflexivity. }
  split; [|exact Hle]. rewrite Hn, Hd. reflexivity.
Defined.

(** C3, counterexample. The payload carries a header named [Host] whose
    value equals the target, but its header block is cut before the empty
    line: headers-complete never fires and the classifier returns false. *)
Lemma C3_host_header_in_unfinished_block :
  let data := unfinished_request in
  let events := fst (request_parser data) in
  has_host_header data events (str "blocked.example") /\
  _stricmp (str "blocked.example") (str "blocked.example") = 0 /\
  ~ In on_headers_complete events /\
  sample_match (str "blocked.example") data = false.
Proof.
  cbv zeta. split; [|split; [reflexivity|split]].
  - exists [on_url 4 1], 16%nat, 4%nat, 22%nat, 15%nat, [].
    repeat split.
  - vm_compute. intros [H|[H|[H|[]]]]; discriminate.
  - vm_compute. reflexivity.
Qed.

Lemma C3_match_iff_complete_and_host_equal_witness :
  sample_match (str "blocked.example") sample_request = true.
Proof.
  apply (proj2 (C3_match_iff_complete_and_host_equal request_parser
                  sample_cfg initial_classifier sample_request 50)
               (str "BLOCKED.example")).
  - vm_compute. right; right; right; left; reflexivity.
  - exists [on_url 4 10], 25%nat, 4%nat, 31%nat, 15%nat, [on_headers_complete].
    repeat split.
  - vm_compute. lia.
  - vm_compute. reflexivity.
Defined.

(** C4, counterexample. With the empty string as target a complete request
    that has no header at all is a match. *)
Lemma C4_absent_host_matches_empty_target :
  let data := bare_request in
  let events := fst (request_parser data) in
  events = [on_url 4 1; on_headers_complete] /\
  existsb (is_field_named_host data) events = false /\
  sample_match [] data = true.
Proof. cbv zeta. repeat split. Qed.

Lemma C4_no_match_on_other_or_absent_host_witness :
  sample_match (str "blocked.example") other_host_request = false /\
  sample_match (str "blocked.example") bare_request = false.
Proof.
  split.
  - apply (C4_no_match_on_other_or_absent_host request_parser sample_cfg
             initial_classifier other_host_request 39).
    left. exists (str "other.example"). split.
    + exists [on_url 4 1], 16%nat, 4%nat, 22%nat, 13%nat, [on_headers_complete].
      repeat split.
    + vm_compute. discriminate.
  - apply (C4_no_match_on_other_or_absent_host request_parser sample_cfg
             initial_classifier bare_request 18).
    right. split; [reflexivity|]. vm_compute. discriminate.
Defined.

Lemma C5_truncated_payload_no_match_witness :
  sample_match (str "blocked.example") malformed_request = false /\
  (List.length (temp_host initial_classifier) = 1024%nat ->
   List.length (temp_host (snd (HttpRequestPayloadMatch request_parser sample_cfg
      initial_classifier malformed_request 42))) = 1024%nat).
Proof.
  apply (C5_truncated_payload_no_match request_parser sample_cfg
           initial_classifier malformed_request 42).
  - vm_compute. lia.
  - vm_compute. intros [H|[]]; discriminate.
Defined.

(** C10, the failing input. The target is the empty string and the header
    block completes with no header named [Host]; the header [Hostx] is
    taken for it, its value [abc] is captured and the classifier returns
    false. *)
Lemma C10_hostx_header_is_captured :
  let data := hostx_request in
  let events := fst (request_parser data) in
  In on_headers_complete events /\
  existsb (is_field_named_host data) events = false /\
  existsb (sets_hostheader data) events = true /\
  c_str (temp_host (snd (HttpRequestPayloadMatch request_parser
           {| port := 80; loopback := false; target_url := [];
              new_host_url := str "new.example" |}
           initial_classifier data (List.length data)))) = str "abc" /\
  sample_match [] data = false.
Proof.
  cbv zeta. split; [vm_compute; right; right; right; left; reflexivity|].
  repeat split.
Qed.

(** C7, counterexample. With an empty line inside the replacement host the
    header block of the response ends there: the body is not [302] and no
    Content-Length is declared. *)
Lemma C7_empty_line_in_replacement_host :
  exists cfg f,
    main_startup injected_argv = started cfg f /\
    content_length (data (blockpage f)) = None /\
    http_body (data (blockpage f)) =
      Some (str "b" ++ crlf ++ str "Date: Mon, 09 Jul 2018 06:27:33 GMT" ++ crlf ++
            str "Content-Length:3" ++ crlf ++ crlf ++ str "302") /\
    http_body (data (blockpage f)) <> Some (str "302").
Proof.
  do 2 eexists. split; [vm_compute; reflexivity|].
  split; [reflexivity|]. split; [reflexivity|]. vm_compute. discriminate.
Qed.

Lemma C7_redirect_template_body_witness :
  content_length (data (blockpage sample_forge)) = Some 3 /\
  http_body (data (blockpage sample_forge)) = Some (str "302") /\
  List.length (str "302") = 3%nat.
Proof.
  apply (C7_redirect_template_body sample_argv sample_cfg sample_forge).
  - reflexivity.
  - repeat (constructor; [discriminate|]). constructor.
Defined.

(** ** The further properties on the sample run *)

(** The state after the sample request has been hijacked once. *)
Lemma sample_reachable_after_hijack :
  reachable request_parser internet_checksums send_succeeds sample_argv sample_cfg
    (fst (sample_main_loop sample_cfg (initial_machine sample_forge)
            [sample_received sample_request])).
Proof. exists sample_forge, [sample_received sample_request]. split; reflexivity. Defined.

Lemma X1_unmatched_packet_is_reinjected_witness :
  let r := recv_packet other_host_request 79 sample_addr
             (Some (sample_parsed other_host_request)) in
  sends (snd (sample_loop_body sample_cfg (initial_machine sample_forge) r)) =
    [(raw_frame other_host_request, 79, sample_addr)] /\
  forge (fst (sample_loop_body sample_cfg (initial_machine sample_forge) r)) =
    sample_forge.
Proof.
  apply (X1_unmatched_packet_is_reinjected request_parser internet_checksums
           send_succeeds sample_cfg (initial_machine sample_forge)
           other_host_request 79 sample_addr
           (Some (sample_parsed other_host_request))).
  intros p E. injection E as <-. vm_compute. reflexivity.
Defined.

Lemma X2_matched_packet_is_replaced_witness :
  let out := snd (sample_loop_body sample_cfg (initial_machine sample_forge)
                    (sample_received sample_request)) in
  (exists rst red fin,
     sends out =
       [(packet_frame rst, 40, sample_addr);
        (data_frame red, 190, reverse_direction sample_addr);
        (packet_frame fin, 40, reverse_direction sample_addr)]) /\
  filter is_raw_send (sends out) = [] /\
  Direction (reverse_direction sample_addr) <> Direction sample_addr.
Proof.
  exact (X2_matched_packet_is_replaced request_parser internet_checksums
           send_succeeds sample_cfg (initial_machine sample_forge)
           [] 90 sample_addr (sample_parsed sample_request) sample_matched).
Defined.

Lemma X5_templates_keep_their_fixed_fields_witness :
  let m := fst (sample_main_loop sample_cfg (initial_machine sample_forge)
                  [sample_received sample_request]) in
  fixed_fields (reset (forge m)) =
    ((4, 5, 0, 40, 0, 0, 64, 6), (5, 0, 0, 0, 0), (0, 0, 1, 0, 1, 0)) /\
  fixed_fields (header (blockpage (forge m))) =
    ((4, 5, 0, 190, 0, 0, 64, 6), (5, 0, 0, 0, 0), (0, 0, 0, 1, 1, 0)) /\
  fixed_fields (finish (forge m)) =
    ((4, 5, 0, 40, 0, 0, 64, 6), (5, 0, 0, 0, 0), (1, 0, 0, 0, 1, 0)).
Proof.
  exact (X5_templates_keep_their_fixed_fields request_parser internet_checksums
           send_succeeds sample_argv sample_cfg _ sample_reachable_after_hijack).
Defined.

Lemma X8_temp_host_stays_terminated_witness :
  let m := fst (sample_main_loop sample_cfg (initial_machine sample_forge)
                  [sample_received sample_request]) in
  List.length (temp_host (classifier m)) = 1024%nat /\
  (strlen (temp_host (classifier m)) < 1024)%nat.
Proof.
  exact (X8_temp_host_stays_terminated request_parser internet_checksums
           send_succeeds sample_argv sample_cfg _ sample_reachable_after_hijack).
Defined.

Lemma X10_last_hostlike_header_decides_witness :
  sample_match (str "abc") hostx_request = true.
Proof.
  assert (H : has_last_hostlike_header hostx_request
                (fst (request_parser (firstn 31 hostx_request))) (str "abc")).
  { exists [on_url 4 1], 16%nat, 5%nat, 23%nat, 3%nat, [on_headers_complete].
    repeat split. }
  apply (proj2 (X10_last_hostlike_header_decides request_parser
                  {| port := 80; loopback := false; target_url := str "abc";
                     new_host_url := str "new.example" |}
                  initial_classifier hostx_request 31 (str "abc") H)).
  split.
  - vm_compute. right; right; right; left; reflexivity.
  - vm_compute. reflexivity.
Defined.

Lemma X11_response_text_fits_witness :
  responseData sample_forge = response_head ++ str "new.example" ++ response_tail /\
  strlen (responseData sample_forge) = 150%nat /\
  (strlen (responseData sample_forge) + 1 <= 2048)%nat /\
  data (blockpage sample_forge) = responseData sample_forge /\
  blockpage_len sample_forge = 190.
Proof.
  exact (X11_response_text_fits sample_argv sample_cfg sample_forge eq_refl).
Defined.

Lemma X13_loopback_flag_reads_four_bytes_witness :
  loopback sample_cfg = true <-> map tolower (read (str "false") 4) = str "true".
Proof.
  exact (X13_loopback_flag_reads_four_bytes (str "httpfilter") (str "80")
           (str "blocked.example") (str "new.example") (str "false")
           sample_cfg sample_forge eq_refl).
Defined.

Lemma X15_parser_byte_count_is_ignored_witness :
  (snd (request_parser trailing_junk_request) < List.length trailing_junk_request)%nat /\
  HttpRequestPayloadMatch request_parser sample_cfg initial_classifier
    trailing_junk_request 51 =
  HttpRequestPayloadMatch (fun b => (fst (request_parser b), 51%nat)) sample_cfg
    initial_classifier trailing_junk_request 51 /\
  fst (HttpRequestPayloadMatch request_parser sample_cfg initial_classifier
         trailing_junk_request 51) = true.
Proof.
  split; [vm_compute; lia|]. split.
  - exact (X15_parser_byte_count_is_ignored request_parser
             (fun b => (fst (request_parser b), 51%nat)) sample_cfg
             initial_classifier trailing_junk_request 51 eq_refl).
  - vm_compute. reflexivity.
Defined.

Lemma X14_redirect_payload_is_kept_witness :
  let m := fst (sample_main_loop sample_cfg (initial_machine sample_forge)
                  [sample_received sample_request]) in
  data (blockpage (forge m)) = response_head ++ str "new.example" ++ response_tail /\
  blockpage_len (forge m) = 190 /\
  src_port (header (blockpage (forge m))) = 80.
Proof.
  exact (X14_redirect_payload_is_kept request_parser internet_checksums
           send_succeeds sample_argv sample_cfg _
           (ex_intro _ sample_forge
              (ex_intro _ [sample_received sample_request] (conj eq_refl eq_refl)))).
Defined.
